(** * intelligent-lab: the agent graph, the tool dispatch loop and the deck templater

    A shallow embedding of the Python notebooks of the repository:

    - [LangGraph]  the router [should_continue], the agent node [call_model]
                   and the wiring of the graph (Langgraph notebook 1);
    - [Engine]     the executor loop and the checkpoint store that the notebook
                   takes from the langgraph library, after the specification;
    - [Deck]       [initialize_deck] of the two langchain notebooks;
    - [OpenAI]     the [tool_calls] dispatch cell of the OpenAI function
                   calling notebook;
    - [JsonText]   a reader of JSON text, and [Samples], the notebooks' data,
                   to run the definitions on inputs.

    Python values that come out of [json.loads] are values of [json];
    an exception is a value of [exception]; a call that can raise returns
    a [result]. *)

From stdpp Require Import base option list strings gmap pretty.
From Stdlib Require Import ZArith Ascii Lia.

Local Open Scope string_scope.
Local Open Scope Z_scope.
Local Open Scope list_scope.

(** ** Python values and exceptions *)

Module Py.

(** What [json.loads] returns: [None], [bool], [int], [float], [str], [list]
    and [dict].  A [dict] keeps its items in insertion order, and its keys are
    strings, pairwise different.  The notebooks only ever format a number, so
    a [float] is carried by the text [repr] gives for it. *)
#[warnings="-register-all"]
Inductive json : Type :=
| JNull
| JBool (b : bool)
| JInt (n : Z)
| JFloat (repr : string)
| JStr (s : string)
| JList (elems : list json)
| JDict (items : list (string * json)).

(** The exceptions the notebooks can run into.  [KeyError] carries the key
    that was looked up; [Error] stands for a failure of an external
    component (the model client, a tool, the graph engine), named by kind. *)
Inductive exception : Type :=
| IndexError
| KeyError (key : json)
| TypeError
| AttributeError (attr : string)
| JSONDecodeError
| OSError
| Error (kind : string).

Inductive result (A : Type) : Type :=
| Return (a : A)
| Raise (e : exception).

Arguments Return {A} a.
Arguments Raise {A} e.

#[global] Instance result_ret : MRet result := fun A a => Return a.
#[global] Instance result_bind : MBind result := fun A B f m =>
  match m with
  | Return a => f a
  | Raise e => Raise e
  end.
#[global] Instance result_fmap : FMap result := fun A B f m =>
  match m with
  | Return a => Return (f a)
  | Raise e => Raise e
  end.

Definition is_KeyError (e : exception) : bool :=
  match e with
  | KeyError _ => true
  | _ => false
  end.

(** [l[-1]] on a list. *)
Definition index_last {A} (l : list A) : result A :=
  match last l with
  | Some x => Return x
  | None => Raise IndexError
  end.

(** Truth value of a list: a list is true when it is not empty. *)
Definition truthy {A} (l : list A) : bool :=
  match l with
  | [] => false
  | _ :: _ => true
  end.

(** *** Text

    A [str] is modelled by the list of its bytes.  The text that the code
    below indexes, iterates over or quotes is ASCII in the notebooks' data,
    and on ASCII text bytes and characters are the same: indexing, iterating
    and [repr] below are those of Python on such text. *)

(** The line feed, written [\n] in Python source. *)
Definition nl : string := String "010"%char EmptyString.

(** The double quote. *)
Definition dq : string := String "034"%char EmptyString.

Definition hex_digit (n : N) : ascii :=
  match n with
  | 0 => "0" | 1 => "1" | 2 => "2" | 3 => "3" | 4 => "4" | 5 => "5"
  | 6 => "6" | 7 => "7" | 8 => "8" | 9 => "9" | 10 => "a" | 11 => "b"
  | 12 => "c" | 13 => "d" | 14 => "e" | _ => "f"
  end%N%char.

Fixpoint has_char (c : ascii) (s : string) : bool :=
  match s with
  | EmptyString => false
  | String c' s' => if Ascii.eqb c c' then true else has_char c s'
  end.

(** One character of [repr(s)], for the quote character [quote] in use:
    the quote and the backslash are escaped, tab, line feed and carriage
    return are written [\t], [\n], [\r], any other control character is
    written [\xhh], and everything else stands for itself. *)
Definition repr_char (quote c : ascii) : string :=
  let code := N_of_ascii c in
  if Ascii.eqb c quote then String "\" (String c EmptyString)
  else if Ascii.eqb c "\" then "\\"
  else if (code =? 9)%N then "\t"
  else if (code =? 10)%N then "\n"
  else if (code =? 13)%N then "\r"
  else if ((code <? 32) || (code =? 127))%N then
    String "\" (String "x" (String (hex_digit (code / 16))
                                   (String (hex_digit (code mod 16)) EmptyString)))
  else String c EmptyString.

Fixpoint repr_chars (quote : ascii) (s : string) : string :=
  match s with
  | EmptyString => EmptyString
  | String c s' => repr_char quote c +:+ repr_chars quote s'
  end.

(** [repr(s)] of a [str] of printable text: in single quotes, unless the
    text has a single quote and no double quote. *)
Definition repr_str (s : string) : string :=
  let quote : ascii :=
    if has_char "'" s && negb (has_char "034" s) then "034"%char else "'"%char in
  String quote (repr_chars quote s) +:+ String quote EmptyString.

(** [repr(v)] *)
Fixpoint py_repr (v : json) : string :=
  match v with
  | JNull => "None"
  | JBool true => "True"
  | JBool false => "False"
  | JInt n => pretty n
  | JFloat text => text
  | JStr s => repr_str s
  | JList elems => "[" +:+ String.concat ", " (List.map py_repr elems) +:+ "]"
  | JDict items =>
      "{" +:+ String.concat ", "
                (List.map (fun kv => repr_str (fst kv) +:+ ": " +:+ py_repr (snd kv))
                          items)
          +:+ "}"
  end.

(** [str(v)], which is what a replacement field [{v}] of an f-string
    inserts: the text itself for a [str], [repr(v)] otherwise. *)
Definition py_str (v : json) : string :=
  match v with
  | JStr s => s
  | _ => py_repr v
  end.

(** [sep.join(parts)] *)
Definition join (sep : string) (parts : list string) : string :=
  String.concat sep parts.

(** [needle in text] on two [str]: [needle] occurs in [text]. *)
Fixpoint is_substring (needle text : string) : bool :=
  if String.prefix needle text then true
  else match text with
       | EmptyString => false
       | String _ text' => is_substring needle text'
       end.

(** The characters of a [str], each as a [str] of length one. *)
Fixpoint chars (s : string) : list string :=
  match s with
  | EmptyString => []
  | String c s' => String c EmptyString :: chars s'
  end.

(** *** Containers *)

(** [d[key]] on the items of a dict. *)
Fixpoint dict_lookup (key : string) (items : list (string * json)) : option json :=
  match items with
  | [] => None
  | (k, v) :: items' => if String.eqb key k then Some v else dict_lookup key items'
  end.

(** [l[n]] on a sequence of length [length l]: a negative index counts from
    the end. *)
Definition seq_index {A} (l : list A) (n : Z) : result A :=
  let len := Z.of_nat (length l) in
  let i := if n <? 0 then n + len else n in
  if (0 <=? i) && (i <? len) then
    match l !! Z.to_nat i with
    | Some x => Return x
    | None => Raise IndexError
    end
  else Raise IndexError.

(** [container[key]] *)
Definition getitem (container key : json) : result json :=
  match container with
  | JDict items =>
      match key with
      | JStr k =>
          match dict_lookup k items with
          | Some v => Return v
          | None => Raise (KeyError key)
          end
      | JList _ | JDict _ => Raise TypeError
      | _ => Raise (KeyError key)
      end
  | JList elems =>
      match key with
      | JInt n => seq_index elems n
      | JBool b => seq_index elems (if b then 1 else 0)
      | _ => Raise TypeError
      end
  | JStr s =>
      match key with
      | JInt n => JStr <$> seq_index (chars s) n
      | JBool b => JStr <$> seq_index (chars s) (if b then 1 else 0)
      | _ => Raise TypeError
      end
  | _ => Raise TypeError
  end.

(** [v.items()] *)
Definition py_items (v : json) : result (list (string * json)) :=
  match v with
  | JDict items => Return items
  | _ => Raise (AttributeError "items")
  end.

(** [v.get(key, default)] *)
Definition py_get (v : json) (key : string) (default : json) : result json :=
  match v with
  | JDict items =>
      match dict_lookup key items with
      | Some x => Return x
      | None => Return default
      end
  | _ => Raise (AttributeError "get")
  end.

(** What [for x in v] goes through: the elements of a list, the keys of a
    dict, the characters of a str; anything else is not iterable. *)
Definition py_iter (v : json) : result (list json) :=
  match v with
  | JList elems => Return elems
  | JDict items => Return (List.map (fun kv => JStr (fst kv)) items)
  | JStr s => Return (List.map JStr (chars s))
  | _ => Raise TypeError
  end.

(** [key in v] for a [str] [key]. *)
Definition py_contains (key : string) (v : json) : result bool :=
  match v with
  | JDict items =>
      Return (match dict_lookup key items with Some _ => true | None => false end)
  | JList elems =>
      Return (existsb (fun x => match x with
                                | JStr s => String.eqb key s
                                | _ => false
                                end) elems)
  | JStr s => Return (is_substring key s)
  | _ => Raise TypeError
  end.

(** A loop or comprehension over [l] whose body can raise: the results in
    order, or the first exception, at which the loop stops. *)
Fixpoint for_each {A B} (body : A -> result B) (l : list A) : result (list B) :=
  match l with
  | [] => Return []
  | x :: l' =>
      y ← body x;
      ys ← for_each body l';
      Return (y :: ys)
  end.

End Py.

Import Py.

(** ** Langgraph notebook 1 *)

Module LangGraph.

(** A tool call of an assistant message, as langchain carries it. *)
Record ToolCall : Type := {
  name : string;
  args : json;
  id : string
}.

Inductive Role : Type := user | assistant | tool.

(** A message object.  [tool_calls] is the attribute of that name:
    [None] when the object has no such attribute, [Some l] when it has one
    and its value is the list [l]. *)
Record Message : Type := {
  role : Role;
  content : string;
  tool_calls : option (list ToolCall);
  tool_call_id : option string
}.

(** [MessagesState]: a dict with the one key ['messages']. *)
Record MessagesState : Type := {
  messages : list Message
}.

(** [langgraph.graph.END]. *)
Definition END : string := "__end__".

(** [last_message.tool_calls] *)
Definition getattr_tool_calls (m : Message) : result (list ToolCall) :=
  match tool_calls m with
  | Some l => Return l
  | None => Raise (AttributeError "tool_calls")
  end.

(** <<
def should_continue(state: MessagesState) -> Literal["tools", END]:
    messages = state['messages']
    last_message = messages[-1]
    if last_message.tool_calls:
        return "tools"
    return END
>> *)
Definition should_continue (state : MessagesState) : result string :=
  let messages := messages state in
  last_message ← index_last messages;
  calls ← getattr_tool_calls last_message;
  if truthy calls then Return "tools" else Return END.

(** <<
def call_model(state: MessagesState):
    messages = state['messages']
    response = model.invoke(messages)
    return {"messages": [response]}
>>
    [model] is the chat model bound to the tools, a global of the notebook. *)
Definition call_model (model : list Message -> result Message)
    (state : MessagesState) : result MessagesState :=
  let messages := messages state in
  response ← model messages;
  Return {| messages := [response] |}.

(** Modelled from the spec: the graph definition of section 4.1, which the
    notebook takes from the langgraph library ([StateGraph(MessagesState)]):
    the registered nodes, the entry node, the conditional edges with their
    routers and the static edges. *)
Record StateGraph : Type := {
  nodes : gmap string (MessagesState -> result MessagesState);
  entry_point : option string;
  branches : gmap string (MessagesState -> result string);
  edges : gmap string string
}.

(** Modelled from the spec: the operations of section 4.1 on a graph:
    an empty graph, registering a node, setting the entry node, registering
    a conditional edge with its router, and registering a static edge. *)
Definition new_graph : StateGraph :=
  {| nodes := ∅; entry_point := None; branches := ∅; edges := ∅ |}.

(** Modelled from the spec: registering a node, its id and its executor
    (section 4.1). *)
Definition add_node (key : string) (action : MessagesState -> result MessagesState)
    (g : StateGraph) : StateGraph :=
  {| nodes := <[key := action]> (nodes g); entry_point := entry_point g;
     branches := branches g; edges := edges g |}.

(** Modelled from the spec: setting the entry node (section 4.1). *)
Definition set_entry_point (key : string) (g : StateGraph) : StateGraph :=
  {| nodes := nodes g; entry_point := Some key;
     branches := branches g; edges := edges g |}.

(** Modelled from the spec: registering a conditional edge with its
    router (section 4.1). *)
Definition add_conditional_edges (source : string)
    (path : MessagesState -> result string) (g : StateGraph) : StateGraph :=
  {| nodes := nodes g; entry_point := entry_point g;
     branches := <[source := path]> (branches g); edges := edges g |}.

(** Modelled from the spec: registering a static edge (section 4.1). *)
Definition add_edge (start_key end_key : string) (g : StateGraph) : StateGraph :=
  {| nodes := nodes g; entry_point := entry_point g;
     branches := branches g; edges := <[start_key := end_key]> (edges g) |}.

(** The cells that build [workflow], in the order the notebook runs them:
<<
workflow = StateGraph(MessagesState)
workflow.add_node("agent", call_model)
workflow.add_node("tools", tool_node)
workflow.set_entry_point("agent")
workflow.add_conditional_edges("agent", should_continue)
workflow.add_edge("tools", 'agent')
>> *)
Definition workflow (model : list Message -> result Message)
    (tool_node : MessagesState -> result MessagesState) : StateGraph :=
  let g := new_graph in
  let g := add_node "agent" (call_model model) g in
  let g := add_node "tools" tool_node g in
  let g := set_entry_point "agent" g in
  let g := add_conditional_edges "agent" should_continue g in
  add_edge "tools" "agent" g.

End LangGraph.

Import LangGraph.

(** ** The graph engine

    The notebook runs [workflow] through the langgraph library
    ([MemorySaver], [ToolNode], [workflow.compile], [app.invoke]), whose code
    is not part of the repository.  Its behaviour is taken from the
    specification, sections 4.3, 4.5 and 4.6. *)

Module Engine.

(** Modelled from the spec: the Checkpoint Store of section 4.5 (the
    notebook's [MemorySaver()]), a mapping from thread identifier to the latest
    snapshot of the conversation state. *)
Abbreviation CheckpointStore := (gmap string MessagesState).

(** Modelled from the spec: what [get] answers, the latest snapshot or the
    NotFound signal (section 4.5). *)
Inductive Snapshot : Type :=
| Found (state : MessagesState)
| NotFound.

(** Modelled from the spec: [put(thread_id, state)] of section 4.5, which
    stores or overwrites the snapshot of that thread. *)
Definition put (thread_id : string) (state : MessagesState)
    (store : CheckpointStore) : CheckpointStore :=
  <[thread_id := state]> store.

(** Modelled from the spec: [get(thread_id)] of section 4.5. *)
Definition get (thread_id : string) (store : CheckpointStore) : Snapshot :=
  match store !! thread_id with
  | Some state => Found state
  | None => NotFound
  end.

(** Modelled from the spec: a store after a sequence of [put]s, the first
    of the list first, starting from the empty store. *)
Definition put_all (writes : list (string * MessagesState)) : CheckpointStore :=
  foldl (fun store w => put w.1 w.2 store) ∅ writes.

(** Modelled from the spec: a capability of the Tool Registry (sections 2, 4.3
    and 6): the parameter shape it accepts and [execute(arguments)], which
    gives a content ([inl]) or an error ([inr]). *)
Record Tool : Type := {
  accepts : json -> bool;
  execute : json -> string + string
}.

(** Modelled from the spec: the ToolResult of one ToolCall (sections 3 and
    4.3): a message of role tool that refers to the call's id and holds the
    tool's output, or an error description for an unknown tool name, a
    malformed argument payload or a failure of the tool itself. *)
Definition tool_result (registry : gmap string Tool) (call : ToolCall) : Message :=
  let text :=
    match registry !! name call with
    | None => "UnknownTool: " +:+ name call
    | Some t =>
        if accepts t (args call) then
          match execute t (args call) with
          | inl output => output
          | inr description => "ToolExecutionFailure: " +:+ description
          end
        else "MalformedArguments: " +:+ name call
    end in
  {| role := tool; content := text; tool_calls := Some [];
     tool_call_id := Some (id call) |}.

(** Modelled from the spec: the Tool Node of section 4.3 (the notebook's
    [ToolNode(tools)]): one ToolResult per ToolCall of the last message, in
    the order of the calls; the step fails when the last message has no
    ToolCalls. *)
Definition tool_node (registry : gmap string Tool)
    (state : MessagesState) : result MessagesState :=
  match last (messages state) with
  | Some m =>
      match tool_calls m with
      | Some (call :: calls) =>
          Return {| messages := tool_result registry <$> (call :: calls) |}
      | _ => Raise (Error "ContractViolation")
      end
  | None => Raise (Error "ContractViolation")
  end.

(** Modelled from the spec: the states of the executor's state machine
    (section 4.6), a node id or TERMINAL. *)
Inductive Target : Type :=
| Node (node_id : string)
| TERMINAL.

(** Modelled from the spec: a route a Router returns, read as a target:
    [END] is the terminal sentinel, anything else names a node. *)
Definition target_of (route : string) : Target :=
  if decide (route = END) then TERMINAL else Node route.

(** Modelled from the spec: a run in progress (sections 3 and 4.6): the
    current node, the conversation state, the steps completed by this
    invocation and the checkpoint store. *)
Record Run : Type := {
  current : string;
  state : MessagesState;
  steps : nat;
  store : CheckpointStore
}.

(** Modelled from the spec: how a run ends (section 3, Lifecycle): the
    Router returned TERMINAL, or an error aborted the run. *)
Inductive Outcome : Type :=
| Terminated (final : Run)
| Aborted (e : exception) (at_run : Run).

(** Modelled from the spec: the next state of the executor (section 4.6):
    the node's static edge if one is configured, otherwise its conditional
    edge's Router applied to the updated state. *)
Definition next_target (g : StateGraph) (node_id : string)
    (updated : MessagesState) : result Target :=
  match edges g !! node_id with
  | Some target => Return (Node target)
  | None =>
      match branches g !! node_id with
      | Some router => target_of <$> router updated
      | None => Raise (Error "ConfigurationError")
      end
  end.

(** Modelled from the spec: one step of the executor (section 4.6): run the
    current node's executor, append its output messages, determine the next
    state, then checkpoint the updated conversation state.  A failure leaves
    the run, and so the last checkpoint, as it was. *)
Definition step (g : StateGraph) (thread_id : string) (r : Run)
    : result (Target * Run) :=
  match nodes g !! current r with
  | None => Raise (Error "ConfigurationError")
  | Some executor =>
      output ← executor (state r);
      let updated := {| messages := messages (state r) ++ messages output |} in
      next ← next_target g (current r) updated;
      Return (next,
              {| current := match next with
                            | Node node_id => node_id
                            | TERMINAL => current r
                            end;
                 state := updated;
                 steps := S (steps r);
                 store := put thread_id updated (store r) |})
  end.

(** Modelled from the spec: the executor loop (section 4.6): it repeats
    [step] until TERMINAL is reached or the step-count ceiling is exceeded.
    [budget] is the number of steps still allowed. *)
Fixpoint run_loop (g : StateGraph) (thread_id : string) (budget : nat)
    (r : Run) : Outcome :=
  match budget with
  | O => Aborted (Error "StepLimitExceeded") r
  | S budget' =>
      match step g thread_id r with
      | Raise e => Aborted e r
      | Return (TERMINAL, r') => Terminated r'
      | Return (Node _, r') => run_loop g thread_id budget' r'
      end
  end.

(** Modelled from the spec: the conversation states of a run, one per
    completed step and in the order of the steps: what [run_loop] checkpoints
    on its way (section 4.6). *)
Fixpoint run_states (g : StateGraph) (thread_id : string) (budget : nat)
    (r : Run) : list MessagesState :=
  match budget with
  | O => []
  | S budget' =>
      match step g thread_id r with
      | Raise _ => []
      | Return (TERMINAL, r') => [state r']
      | Return (Node _, r') => state r' :: run_states g thread_id budget' r'
      end
  end.

(** [l1] is a strict prefix of [l2]: [l2] is [l1] followed by at least one
    more element. *)
Definition strict_prefix {A} (l1 l2 : list A) : Prop :=
  exists k, k <> [] /\ l2 = l1 ++ k.

(** Modelled from the spec: [start_or_resume] (sections 4.5 and 6) with a
    user message: the run continues from the thread's checkpoint with the
    message appended when there is one, and starts from a fresh conversation
    state holding the message otherwise; it starts at the entry node. *)
Definition start_or_resume (g : StateGraph) (max_steps : nat)
    (thread_id : string) (user_message : Message)
    (store : CheckpointStore) : Outcome :=
  let initial :=
    match get thread_id store with
    | Found checkpoint =>
        {| messages := messages checkpoint ++ [user_message] |}
    | NotFound => {| messages := [user_message] |}
    end in
  match entry_point g with
  | None =>
      Aborted (Error "ConfigurationError")
        {| current := ""; state := initial; steps := 0; store := store |}
  | Some entry =>
      run_loop g thread_id max_steps
        {| current := entry; state := initial; steps := 0; store := store |}
  end.

End Engine.

(** ** The deck templater

    [initialize_deck] of the notebooks "Langchain agents: multiple tools"
    and "read structured deck layout"; the two cells define the same
    function. *)

Module Deck.

(** One element of the comprehension
<<
[f"protocol.load_labware('{config['labware'][rack]['type']}', '{rack}')"
 for rack in pipette['tip_racks']]
>> *)
Definition tip_rack (config rack : json) : result string :=
  labware ← getitem config (JStr "labware");
  entry ← getitem labware rack;
  type ← getitem entry (JStr "type");
  Return ("protocol.load_labware('" +:+ py_str type +:+ "', '"
          +:+ py_str rack +:+ "')").

(** The body of the loop over the pipettes, which gives the line it appends
    to [code]:
<<
for mount, pipette in config['pipettes'].items():
    tip_racks = [... for rack in pipette['tip_racks']]
    tip_racks_str = ", ".join(tip_racks)
    code.append(f"    {mount}_pipette = protocol.load_instrument("
                f"'{pipette['type']}', '{mount}', tip_racks=[{tip_racks_str}])")
>>
    (the f-string is one literal in the notebook). *)
Definition pipette_line (config : json) (item : string * json) : result string :=
  let '(mount, pipette) := item in
  racks ← getitem pipette (JStr "tip_racks");
  racks ← py_iter racks;
  tip_racks ← for_each (tip_rack config) racks;
  let tip_racks_str := join ", " tip_racks in
  type ← getitem pipette (JStr "type");
  Return ("    " +:+ mount +:+ "_pipette = protocol.load_instrument('"
          +:+ py_str type +:+ "', '" +:+ mount +:+ "', tip_racks=["
          +:+ tip_racks_str +:+ "])").

(** The body of the loop over the modules:
<<
for module_name, module_info in config.get('modules', {}).items():
    code.append(f"    {module_name} = protocol.load_module("
                f"'{module_info['type']}', '{module_info['location'][0]}')")
>> *)
Definition module_line (item : string * json) : result string :=
  let '(module_name, module_info) := item in
  type ← getitem module_info (JStr "type");
  location ← getitem module_info (JStr "location");
  first ← getitem location (JInt 0);
  Return ("    " +:+ module_name +:+ " = protocol.load_module('"
          +:+ py_str type +:+ "', '" +:+ py_str first +:+ "')").

(** The body of the loop over the labware:
<<
for slot, labware in config['labware'].items():
    if 'parent_module' in labware:
        code.append(f"    {slot}_labware = {labware['parent_module']}"
                    f".load_labware('{labware['type']}')")
    else:
        code.append(f"    {slot}_labware = protocol.load_labware("
                    f"'{labware['type']}', '{slot}')")
>> *)
Definition labware_line (item : string * json) : result string :=
  let '(slot, labware) := item in
  has_parent ← py_contains "parent_module" labware;
  if has_parent : bool then
    parent ← getitem labware (JStr "parent_module");
    type ← getitem labware (JStr "type");
    Return ("    " +:+ slot +:+ "_labware = " +:+ py_str parent
            +:+ ".load_labware('" +:+ py_str type +:+ "')")
  else
    type ← getitem labware (JStr "type");
    Return ("    " +:+ slot +:+ "_labware = protocol.load_labware('"
            +:+ py_str type +:+ "', '" +:+ slot +:+ "')").

(** The three lines every generated script starts with:
<<
code.append("from opentrons import protocol_api")
code.append(f"\nmetadata = {{'apiLevel': '{config['api_version']}'}}")
code.append("\ndef run(protocol: protocol_api.ProtocolContext):")
>> *)
Definition header (api_version : json) : list string :=
  [ "from opentrons import protocol_api";
    nl +:+ "metadata = {'apiLevel': '" +:+ py_str api_version +:+ "'}";
    nl +:+ "def run(protocol: protocol_api.ProtocolContext):" ].

(** The list [code] at the [return] of [initialize_deck], for the parsed
    configuration [config]. *)
Definition deck_code (config : json) : result (list string) :=
  api_version ← getitem config (JStr "api_version");
  pipettes ← getitem config (JStr "pipettes");
  pipettes ← py_items pipettes;
  pipette_lines ← for_each (pipette_line config) pipettes;
  modules ← py_get config "modules" (JDict []);
  modules ← py_items modules;
  module_lines ← for_each module_line modules;
  labware ← getitem config (JStr "labware");
  labware ← py_items labware;
  labware_lines ← for_each labware_line labware;
  Return (header api_version ++ pipette_lines ++ module_lines ++ labware_lines).

Section InitializeDeck.

(** [open(path, 'r').read()] and [json.loads], which the function calls. *)
Variable read_file : string -> result string.
Variable json_loads : string -> result json.

(** <<
def initialize_deck(config_path: str) -> str:
    with open(config_path, 'r') as file:
        opentrons_config_string = file.read()
    config = json.loads(opentrons_config_string)
    code = []
    ...
    return "\n".join(code)
>> *)
Definition initialize_deck (config_path : string) : result string :=
  opentrons_config_string ← read_file config_path;
  config ← json_loads opentrons_config_string;
  code ← deck_code config;
  Return (join nl code).

End InitializeDeck.

(** [name.isidentifier()] for ASCII text: a letter or an underscore, then
    letters, digits and underscores. *)
Definition is_letter (c : ascii) : bool :=
  let n := N_of_ascii c in
  ((65 <=? n) && (n <=? 90) || (97 <=? n) && (n <=? 122) || (n =? 95))%N.

Definition is_digit (c : ascii) : bool :=
  let n := N_of_ascii c in ((48 <=? n) && (n <=? 57))%N.

Fixpoint all_chars (p : ascii -> bool) (s : string) : bool :=
  match s with
  | EmptyString => true
  | String c s' => p c && all_chars p s'
  end.

Definition is_identifier (s : string) : bool :=
  match s with
  | EmptyString => false
  | String c s' => is_letter c && all_chars (fun c => is_letter c || is_digit c) s'
  end.

(** The text starts with a decimal digit, as a slot label such as ["1"]. *)
Definition starts_with_digit (s : string) : bool :=
  match s with
  | EmptyString => false
  | String c _ => is_digit c
  end.

(** *** The shape of a configuration

    The sections of the notebooks' configuration file: ['pipettes'] maps a
    mount to a dict whose ['tip_racks'] is a list of slot labels, ['modules']
    maps a name to a dict whose ['location'] is a list with a first element,
    and ['labware'] maps a slot label to a dict. *)

Definition is_dict (v : json) : bool :=
  match v with
  | JDict _ => true
  | _ => false
  end.

Definition is_str (v : json) : bool :=
  match v with
  | JStr _ => true
  | _ => false
  end.

Definition shaped_pipette (pipette : json) : bool :=
  match pipette with
  | JDict items =>
      match dict_lookup "tip_racks" items with
      | Some (JList racks) => forallb is_str racks
      | Some _ => false
      | None => true
      end
  | _ => false
  end.

Definition shaped_module (module_info : json) : bool :=
  match module_info with
  | JDict items =>
      match dict_lookup "location" items with
      | Some (JList (_ :: _)) => true
      | Some _ => false
      | None => true
      end
  | _ => false
  end.

(** A section that is present is a dict whose values all pass [entry]. *)
Definition shaped_section (entry : json -> bool) (section : option json) : bool :=
  match section with
  | Some (JDict items) => forallb (fun kv => entry (snd kv)) items
  | Some _ => false
  | None => true
  end.

(** The sections that are present in the configuration with the items
    [items] have the shape above. *)
Definition well_shaped (items : list (string * json)) : bool :=
  shaped_section shaped_pipette (dict_lookup "pipettes" items)
  && shaped_section shaped_module (dict_lookup "modules" items)
  && shaped_section is_dict (dict_lookup "labware" items).

(** Some pipette's [tip_racks] entry names a slot that is not a key of the
    ['labware'] mapping. *)
Definition names_absent_slot (items : list (string * json)) : Prop :=
  exists pipettes labware mount pipette racks slot,
    dict_lookup "pipettes" items = Some (JDict pipettes)
    /\ dict_lookup "labware" items = Some (JDict labware)
    /\ (mount, JDict pipette) ∈ pipettes
    /\ dict_lookup "tip_racks" pipette = Some (JList racks)
    /\ JStr slot ∈ racks
    /\ dict_lookup slot labware = None.

End Deck.

(** ** The OpenAI function calling notebook *)

Module OpenAI.

(** [Function(arguments=..., name=...)]: the arguments are JSON text. *)
Record Function : Type := {
  arguments : string;
  name : string
}.

(** [ChatCompletionMessageToolCall(id=..., function=..., type='function')] *)
Record ChatCompletionMessageToolCall : Type := {
  id : string;
  function : Function;
  type : string
}.

(** An entry of the list [messages]: a dict with the keys ['role'] and
    ['content'], and ['name'] for the result of a function. *)
Record ChatMessage : Type := {
  role : string;
  name_of : option string;
  content : string
}.

(** What the cells share: the global list [messages], which the dispatch
    cell appends to in place, and the text printed so far, one entry per
    call of [print]. *)
Record Notebook : Type := {
  messages : list ChatMessage;
  stdout : list string
}.

(** A piece of a cell: it runs on the notebook's state, returns a value or
    raises, and leaves a state behind in either case. *)
Definition Cell (A : Type) : Type := Notebook -> result A * Notebook.

#[global] Instance cell_ret : MRet Cell := fun A a nb => (Return a, nb).
#[global] Instance cell_bind : MBind Cell := fun A B f m nb =>
  match m nb with
  | (Return a, nb') => f a nb'
  | (Raise e, nb') => (Raise e, nb')
  end.

(** A call that does not touch the notebook's state. *)
Definition lift {A} (m : result A) : Cell A := fun nb => (m, nb).

(** [print(text)] *)
Definition print (text : string) : Cell unit := fun nb =>
  (Return tt, {| messages := messages nb; stdout := stdout nb ++ [text] |}).

(** [messages.append(m)] *)
Definition append (m : ChatMessage) : Cell unit := fun nb =>
  (Return tt, {| messages := messages nb ++ [m]; stdout := stdout nb |}).

(** Reading the global [messages]. *)
Definition read_messages : Cell (list ChatMessage) := fun nb =>
  (Return (messages nb), nb).

(** What [print] writes for an optional text: the text, or [None]. *)
Definition print_text (content : option string) : string :=
  match content with
  | Some text => text
  | None => "None"
  end.

(** A call [f( **function_args)]: the arguments must be a mapping, whose items
    become the keyword arguments. *)
Definition call_with (f : list (string * json) -> result string)
    (function_args : json) : result string :=
  match function_args with
  | JDict items => f items
  | _ => Raise TypeError
  end.

(** The text [json.dumps(default_deck_state, indent=2)] that
    [generate_opentrons_code] quotes is a parameter here. *)
Definition generate_opentrons_code_text (deck_state_dump : string)
    (command : json) : string :=
  nl +:+ "# Generated Opentrons code for: " +:+ py_str command +:+ nl
  +:+ "# Using default deck state: " +:+ deck_state_dump +:+ nl
  +:+ nl
  +:+ "from opentrons import protocol_api" +:+ nl
  +:+ nl
  +:+ "metadata = {'apiLevel': '2.13'}" +:+ nl
  +:+ nl
  +:+ "def run(protocol: protocol_api.ProtocolContext):" +:+ nl
  +:+ "    # TODO: Implement the steps to execute the command" +:+ nl
  +:+ "    # This would involve translating the natural language command" +:+ nl
  +:+ "    # into specific Opentrons API calls, using the default deck state" +:+ nl
  +:+ "    pass" +:+ nl.

(** [generate_opentrons_code(command)], called with keyword arguments: it
    takes exactly the argument [command]. *)
Definition generate_opentrons_code (deck_state_dump : string)
    (kwargs : list (string * json)) : result string :=
  match kwargs with
  | [(key, command)] =>
      if String.eqb key "command"
      then Return (generate_opentrons_code_text deck_state_dump command)
      else Raise TypeError
  | _ => Raise TypeError
  end.

(** <<
available_functions = {
    "generate_opentrons_code": generate_opentrons_code
}
>> *)
Definition available_functions (deck_state_dump : string)
    : gmap string (list (string * json) -> result string) :=
  {[ "generate_opentrons_code" := generate_opentrons_code deck_state_dump ]}.

Section Dispatch.

(** [json.loads]; the registry [available_functions]; and the model client:
    [chat_create messages] is the [content] of the first choice of
    [client.chat.completions.create(model="gpt-4o-mini", messages=messages)]. *)
Variable json_loads : string -> result json.
Variable registry : gmap string (list (string * json) -> result string).
Variable chat_create : list ChatMessage -> result (option string).

(** The body of [for tool_call in tool_calls]:
<<
function_name = tool_call.function.name
function_args = json.loads(tool_call.function.arguments)
if function_name in available_functions:
    function_response = available_functions[function_name]( **function_args)
    print(f"Generated Opentrons Code:\n{function_response}")
    messages.append({"role": "function", "name": function_name,
                     "content": function_response})
>> *)
Definition dispatch (tool_call : ChatCompletionMessageToolCall) : Cell unit :=
  let function_name := name (function tool_call) in
  function_args ← lift (json_loads (arguments (function tool_call)));
  match registry !! function_name with
  | Some f =>
      function_response ← lift (call_with f function_args);
      _ ← print ("Generated Opentrons Code:" +:+ nl +:+ function_response);
      append {| role := "function"; name_of := Some function_name;
                content := function_response |}
  | None => mret tt
  end.

(** The loop [for tool_call in tool_calls]. *)
Fixpoint dispatch_loop (tool_calls : list ChatCompletionMessageToolCall)
    : Cell unit :=
  match tool_calls with
  | [] => mret tt
  | tool_call :: rest => _ ← dispatch tool_call; dispatch_loop rest
  end.

(** The dispatch cell:
<<
if tool_calls:
    for tool_call in tool_calls: ...
    second_response = client.chat.completions.create(
        model="gpt-4o-mini", messages=messages)
    print("\nExplanation of the generated code:")
    print(second_response.choices[0].message.content)
else:
    print(response_message.content)
>>
    [tool_calls] is [response_message.tool_calls], which is [None] when the
    model called no tool. *)
Definition dispatch_cell (response_content : option string)
    (tool_calls : option (list ChatCompletionMessageToolCall)) : Cell unit :=
  match tool_calls with
  | Some (tool_call :: rest) =>
      _ ← dispatch_loop (tool_call :: rest);
      history ← read_messages;
      second_response ← lift (chat_create history);
      _ ← print (nl +:+ "Explanation of the generated code:");
      print (print_text second_response)
  | _ => print (print_text response_content)
  end.

End Dispatch.

(** *** Vocabulary for the properties of the loop *)

(** The message the loop appends for a call: none when the name is not in
    the registry, and none when the payload or the function fails. *)
Definition reply_of (json_loads : string -> result json)
    (registry : gmap string (list (string * json) -> result string))
    (tool_call : ChatCompletionMessageToolCall) : option ChatMessage :=
  match registry !! name (function tool_call) with
  | Some f =>
      match json_loads (arguments (function tool_call)) ≫= call_with f with
      | Return function_response =>
          Some {| role := "function"; name_of := Some (name (function tool_call));
                  content := function_response |}
      | Raise _ => None
      end
  | None => None
  end.

(** The name of the call is a key of the registry. *)
Definition registered
    (registry : gmap string (list (string * json) -> result string))
    (tool_call : ChatCompletionMessageToolCall) : bool :=
  bool_decide (is_Some (registry !! name (function tool_call))).

(** The call goes through: its payload parses, and the function registered
    under its name, if there is one, returns. *)
Definition succeeds (json_loads : string -> result json)
    (registry : gmap string (list (string * json) -> result string))
    (tool_call : ChatCompletionMessageToolCall) : Prop :=
  exists function_args,
    json_loads (arguments (function tool_call)) = Return function_args
    /\ forall f, registry !! name (function tool_call) = Some f ->
                 exists function_response,
                   call_with f function_args = Return function_response.

End OpenAI.

(** ** Reading JSON text

    [json.loads] belongs to Python's library; the definitions above take it
    as a parameter.  [JsonText.loads] is a reader for the part of JSON the
    notebooks' data is written in, used to run them on text: documents
    whose numbers are integers and whose strings have no [\u] escape.  On
    such a document it gives the value [json.loads] gives, and it raises
    [JSONDecodeError] on text that is not JSON.  It refuses what lies outside
    that part too (a number with a fraction or an exponent, [NaN], [Infinity],
    a [\u] escape), which [json.loads] reads. *)

Module JsonText.

Definition is_space (c : ascii) : bool :=
  let n := N_of_ascii c in ((n =? 32) || (n =? 9) || (n =? 10) || (n =? 13))%N.

Fixpoint skip_ws (s : string) : string :=
  match s with
  | String c s' => if is_space c then skip_ws s' else s
  | EmptyString => s
  end.

(** The rest of [s] after the prefix [p], if [s] starts with [p]. *)
Fixpoint after_prefix (p s : string) : option string :=
  match p, s with
  | EmptyString, _ => Some s
  | String a p', String b s' => if Ascii.eqb a b then after_prefix p' s' else None
  | String _ _, EmptyString => None
  end.

(** The character an escape [\e] of a JSON string stands for. *)
Definition unescape (e : ascii) : option ascii :=
  let n := N_of_ascii e in
  if (n =? 34)%N then Some e
  else if (n =? 92)%N then Some e
  else if (n =? 47)%N then Some e
  else if Ascii.eqb e "b" then Some "008"%char
  else if Ascii.eqb e "f" then Some "012"%char
  else if Ascii.eqb e "n" then Some "010"%char
  else if Ascii.eqb e "r" then Some "013"%char
  else if Ascii.eqb e "t" then Some "009"%char
  else None.

(** The characters of a JSON string up to its closing quote, and the text
    after that quote. *)
Fixpoint read_string (s : string) : option (string * string) :=
  match s with
  | EmptyString => None
  | String c s' =>
      if (N_of_ascii c =? 34)%N then Some (EmptyString, s')
      else if (N_of_ascii c =? 92)%N then
        match s' with
        | String e s'' =>
            match unescape e, read_string s'' with
            | Some ch, Some (text, rest) => Some (String ch text, rest)
            | _, _ => None
            end
        | EmptyString => None
        end
      else if (N_of_ascii c <? 32)%N then None
      else
        match read_string s' with
        | Some (text, rest) => Some (String c text, rest)
        | None => None
        end
  end.

Definition digit_value (c : ascii) : Z := Z.of_N (N_of_ascii c) - 48.

Fixpoint read_digits (acc : Z) (s : string) : Z * string :=
  match s with
  | String c s' =>
      if Deck.is_digit c then read_digits (10 * acc + digit_value c) s' else (acc, s)
  | EmptyString => (acc, s)
  end.

(** An integer literal: an optional minus sign, then [0] or a digit other
    than zero followed by digits.  A fraction or an exponent after it is
    outside the part of JSON read here. *)
Definition read_number (s : string) : option (json * string) :=
  let '(negative, s1) :=
    match s with
    | String c s' => if Ascii.eqb c "-" then (true, s') else (false, s)
    | EmptyString => (false, s)
    end in
  match s1 with
  | String c s' =>
      if Deck.is_digit c then
        let '(n, rest) :=
          if Ascii.eqb c "0" then (0, s') else read_digits (digit_value c) s' in
        let value := JInt (if negative : bool then - n else n) in
        match rest with
        | String d _ =>
            if Ascii.eqb d "." || Ascii.eqb d "e" || Ascii.eqb d "E" then None
            else Some (value, rest)
        | EmptyString => Some (value, rest)
        end
      else None
  | EmptyString => None
  end.

(** [d[key] = v] on the items of a dict: a key that is already there keeps
    its place and takes the new value. *)
Fixpoint dict_set (key : string) (v : json) (items : list (string * json))
    : list (string * json) :=
  match items with
  | [] => [(key, v)]
  | (k, v') :: items' =>
      if String.eqb key k then (k, v) :: items'
      else (k, v') :: dict_set key v items'
  end.

(** A value, the elements of an array after its opening bracket, and the
    members of an object after its opening brace.  [fuel] bounds the number
    of nested calls. *)
Fixpoint read_value (fuel : nat) (s : string) : option (json * string) :=
  match fuel with
  | O => None
  | S fuel' =>
      match s with
      | EmptyString => None
      | String c s' =>
          if (N_of_ascii c =? 34)%N then
            match read_string s' with
            | Some (text, rest) => Some (JStr text, rest)
            | None => None
            end
          else if Ascii.eqb c "[" then
            match skip_ws s' with
            | String "]" rest => Some (JList [], rest)
            | s'' => read_elems fuel' [] s''
            end
          else if Ascii.eqb c "{" then
            match skip_ws s' with
            | String "}" rest => Some (JDict [], rest)
            | s'' => read_members fuel' [] s''
            end
          else if Ascii.eqb c "n" then
            match after_prefix "ull" s' with
            | Some rest => Some (JNull, rest)
            | None => None
            end
          else if Ascii.eqb c "t" then
            match after_prefix "rue" s' with
            | Some rest => Some (JBool true, rest)
            | None => None
            end
          else if Ascii.eqb c "f" then
            match after_prefix "alse" s' with
            | Some rest => Some (JBool false, rest)
            | None => None
            end
          else read_number s
      end
  end
with read_elems (fuel : nat) (acc : list json) (s : string)
    : option (json * string) :=
  match fuel with
  | O => None
  | S fuel' =>
      match read_value fuel' s with
      | Some (v, rest) =>
          match skip_ws rest with
          | String "," rest' => read_elems fuel' (acc ++ [v]) (skip_ws rest')
          | String "]" rest' => Some (JList (acc ++ [v]), rest')
          | _ => None
          end
      | None => None
      end
  end
with read_members (fuel : nat) (acc : list (string * json)) (s : string)
    : option (json * string) :=
  match fuel with
  | O => None
  | S fuel' =>
      match s with
      | String c s' =>
          if (N_of_ascii c =? 34)%N then
            match read_string s' with
            | Some (key, rest) =>
                match skip_ws rest with
                | String ":" rest' =>
                    match read_value fuel' (skip_ws rest') with
                    | Some (v, rest'') =>
                        match skip_ws rest'' with
                        | String "," rest3 =>
                            read_members fuel' (dict_set key v acc) (skip_ws rest3)
                        | String "}" rest3 => Some (JDict (dict_set key v acc), rest3)
                        | _ => None
                        end
                    | None => None
                    end
                | _ => None
                end
            | None => None
            end
          else None
      | EmptyString => None
      end
  end.

(** [json.loads(text)] on the part of JSON described above. *)
Definition loads (text : string) : result json :=
  match read_value (2 * String.length text + 2) (skip_ws text) with
  | Some (v, rest) =>
      match skip_ws rest with
      | EmptyString => Return v
      | String _ _ => Raise JSONDecodeError
      end
  | None => Raise JSONDecodeError
  end.

End JsonText.

(** ** Cleaning the text of the documentation

    [clean_text] of Langgraph notebook 1 and of "Langchain agents: multiple
    tools"; the two cells define the same function.  The two regular
    expressions are written out as passes over the characters. *)

Module Cleaning.

Definition is_nl (c : ascii) : bool := (N_of_ascii c =? 10)%N.

(** [c.isspace()] for an ASCII character: tab, line feed, vertical tab,
    form feed, carriage return, the four separators 28 to 31 and the space.
    These are the characters [strip()] removes. *)
Definition is_whitespace (c : ascii) : bool :=
  let n := N_of_ascii c in
  ((9 <=? n) && (n <=? 13) || (28 <=? n) && (n <=? 32))%N.




(** [text.lstrip()], [text.rstrip()] and [text.strip()] *)
Fixpoint lstrip (text : string) : string :=
  match text with
  | String c rest => if is_whitespace c then lstrip rest else text
  | EmptyString => EmptyString
  end.

Fixpoint rstrip (text : string) : string :=
  match text with
  | String c rest =>
      match rstrip rest with
      | EmptyString => if is_whitespace c then EmptyString else String c EmptyString
      | kept => String c kept
      end
  | EmptyString => EmptyString
  end.

Definition strip (text : string) : string := rstrip (lstrip text).


(** *** Vocabulary for the properties of [clean_text] *)



Definition starts_with_whitespace (text : string) : bool :=
  match text with
  | String c _ => is_whitespace c
  | EmptyString => false
  end.

Fixpoint ends_with_whitespace (text : string) : bool :=
  match text with
  | String c EmptyString => is_whitespace c
  | String _ rest => ends_with_whitespace rest
  | EmptyString => false
  end.



End Cleaning.

(** ** Sample data

    Concrete messages, a scripted model and a tool registry, used to run the
    definitions above on inputs. *)

Module Samples.

Import Engine.

(** [AIMessage(content=text, tool_calls=calls)] *)
Definition ai_message (text : string) (calls : list ToolCall) : Message :=
  {| role := assistant; content := text; tool_calls := Some calls;
     tool_call_id := None |}.

(** [HumanMessage(content=text)], which has no [tool_calls] attribute. *)
Definition human_message (text : string) : Message :=
  {| role := user; content := text; tool_calls := None; tool_call_id := None |}.

Definition search_call : ToolCall :=
  {| name := "search_opentrons_docs";
     args := JDict [("query", JStr "blow out")];
     id := "call_1" |}.

Definition question : Message :=
  human_message "How do I blow out small drops of liquid from the pipette tip?".

(** A model that asks for one search on the first turn and answers on any
    later turn. *)
Definition searching_model (history : list Message) : result Message :=
  match history with
  | [_] => Return (ai_message "" [search_call])
  | _ => Return (ai_message "Use pipette.blow_out()." [])
  end.

(** A model that answers at once, without tool calls. *)
Definition direct_model (history : list Message) : result Message :=
  Return (ai_message "Use pipette.blow_out()." []).

(** A registry with the one tool of the notebook, the documentation search,
    standing for the retriever: it wants a dict with a ['query'] entry. *)
Definition search_tool : Tool :=
  {| accepts := fun a => match a with
                         | JDict [("query", JStr _)] => true
                         | _ => false
                         end;
     execute := fun _ => inl "InstrumentContext.blow_out() ..." |}.

Definition sample_registry : gmap string Tool :=
  {[ "search_opentrons_docs" := search_tool ]}.

Definition fresh_run (entry : string) (first : Message) : Run :=
  {| current := entry; state := {| messages := [first] |}; steps := 0;
     store := ∅ |}.

(** [q s] is [s] in double quotes. *)
Definition q (s : string) : string := dq +:+ s +:+ dq.

(** The deck configuration the langchain notebooks run on, as the output of
    the cell [json.dumps(opentrons_config)] shows it. *)
Definition opentrons_config_string : string :=
  "{" +:+ q "robot_type" +:+ ": " +:+ q "OT-2" +:+ ", " +:+
  q "api_version" +:+ ": " +:+ q "2.17" +:+ ", " +:+ q "pipettes" +:+
  ": {" +:+ q "left" +:+ ": {" +:+ q "type" +:+ ": " +:+
  q "p300_single_gen2" +:+ ", " +:+ q "tip_racks" +:+ ": [" +:+ q "1" +:+
  "]}, " +:+ q "right" +:+ ": {" +:+ q "type" +:+ ": " +:+
  q "p20_multi_gen2" +:+ ", " +:+ q "tip_racks" +:+ ": [" +:+ q "2" +:+
  "]}}, " +:+ q "modules" +:+ ": {" +:+ q "thermocycler" +:+ ": {" +:+
  q "type" +:+ ": " +:+ q "thermocyclerModuleV2" +:+ ", " +:+
  q "location" +:+ ": [" +:+ q "7" +:+ "]}}, " +:+ q "labware" +:+ ": {" +:+
  q "1" +:+ ": {" +:+ q "type" +:+ ": " +:+
  q "opentrons_96_tiprack_300ul" +:+ "}, " +:+ q "2" +:+ ": {" +:+
  q "type" +:+ ": " +:+ q "opentrons_96_tiprack_20ul" +:+ "}, " +:+ q "3" +:+
  ": {" +:+ q "type" +:+ ": " +:+ q "corning_96_wellplate_360ul_flat" +:+
  "}, " +:+ q "5" +:+ ": {" +:+ q "type" +:+ ": " +:+
  q "nest_12_reservoir_15ml" +:+ "}, " +:+ q "7" +:+ ": {" +:+ q "type" +:+
  ": " +:+ q "nest_96_wellplate_100ul_pcr_full_skirt" +:+ ", " +:+
  q "parent_module" +:+ ": " +:+ q "thermocycler" +:+ "}}}".

(** Its ['labware'] section as a value. *)
Definition opentrons_labware : list (string * json) :=
  [ ("1", JDict [("type", JStr "opentrons_96_tiprack_300ul")]);
    ("2", JDict [("type", JStr "opentrons_96_tiprack_20ul")]);
    ("3", JDict [("type", JStr "corning_96_wellplate_360ul_flat")]);
    ("5", JDict [("type", JStr "nest_12_reservoir_15ml")]);
    ("7", JDict [ ("type", JStr "nest_96_wellplate_100ul_pcr_full_skirt");
                  ("parent_module", JStr "thermocycler") ]) ].

(** The whole configuration as a value. *)
Definition opentrons_config : json :=
  JDict
    [ ("robot_type", JStr "OT-2");
      ("api_version", JStr "2.17");
      ("pipettes",
       JDict
         [ ("left", JDict [ ("type", JStr "p300_single_gen2");
                            ("tip_racks", JList [JStr "1"]) ]);
           ("right", JDict [ ("type", JStr "p20_multi_gen2");
                             ("tip_racks", JList [JStr "2"]) ]) ]);
      ("modules",
       JDict
         [ ("thermocycler", JDict [ ("type", JStr "thermocyclerModuleV2");
                                    ("location", JList [JStr "7"]) ]) ]);
      ("labware", JDict opentrons_labware) ].

(** [default_deck_state] of the OpenAI notebook. *)
Definition default_deck_state : json :=
  JDict
    [ ("pipettes",
       JDict
         [ ("left", JDict [ ("type", JStr "p300_single");
                            ("tip_racks", JList [JStr "1"]) ]);
           ("right", JDict [ ("type", JStr "p20_multi");
                             ("tip_racks", JList [JStr "4"; JStr "5"]) ]) ]);
      ("modules",
       JDict [ ("1", JStr "temperature module");
               ("3", JStr "magnetic module") ]);
      ("labware",
       JDict [ ("1", JStr "opentrons_96_tiprack_300ul");
               ("2", JStr "corning_96_wellplate_360ul_flat");
               ("3", JStr "nest_96_wellplate_100ul_pcr_full_skirt");
               ("4", JStr "opentrons_96_tiprack_20ul");
               ("5", JStr "opentrons_96_tiprack_20ul");
               ("6", JStr "nest_12_reservoir_15ml") ]) ].

(** [json.dumps(default_deck_state, indent=2)], as the output of the
    dispatch cell shows it. *)
Definition default_deck_state_dump : string :=
  join nl [
    "{";
    "  " +:+ q "pipettes" +:+ ": {";
    "    " +:+ q "left" +:+ ": {";
    "      " +:+ q "type" +:+ ": " +:+ q "p300_single" +:+ ",";
    "      " +:+ q "tip_racks" +:+ ": [";
    "        " +:+ q "1";
    "      ]";
    "    },";
    "    " +:+ q "right" +:+ ": {";
    "      " +:+ q "type" +:+ ": " +:+ q "p20_multi" +:+ ",";
    "      " +:+ q "tip_racks" +:+ ": [";
    "        " +:+ q "4" +:+ ",";
    "        " +:+ q "5";
    "      ]";
    "    }";
    "  },";
    "  " +:+ q "modules" +:+ ": {";
    "    " +:+ q "1" +:+ ": " +:+ q "temperature module" +:+ ",";
    "    " +:+ q "3" +:+ ": " +:+ q "magnetic module";
    "  },";
    "  " +:+ q "labware" +:+ ": {";
    "    " +:+ q "1" +:+ ": " +:+ q "opentrons_96_tiprack_300ul" +:+ ",";
    "    " +:+ q "2" +:+ ": " +:+ q "corning_96_wellplate_360ul_flat" +:+ ",";
    "    " +:+ q "3" +:+ ": " +:+ q "nest_96_wellplate_100ul_pcr_full_skirt" +:+ ",";
    "    " +:+ q "4" +:+ ": " +:+ q "opentrons_96_tiprack_20ul" +:+ ",";
    "    " +:+ q "5" +:+ ": " +:+ q "opentrons_96_tiprack_20ul" +:+ ",";
    "    " +:+ q "6" +:+ ": " +:+ q "nest_12_reservoir_15ml";
    "  }";
    "}" ].

(** The list [messages] before the first call of the model. *)
Definition chat_history : list OpenAI.ChatMessage :=
  [ {| OpenAI.role := "system"; OpenAI.name_of := None;
       OpenAI.content :=
         "You are an AI assistant that helps translate natural language "
         +:+ "commands into Opentrons Python code. Always use the provided "
         +:+ "default deck state unless the user explicitly specifies "
         +:+ "changes to it." |};
    {| OpenAI.role := "system"; OpenAI.name_of := None;
       OpenAI.content := "Default deck state: " +:+ py_str default_deck_state |};
    {| OpenAI.role := "user"; OpenAI.name_of := None;
       OpenAI.content :=
         "I want to transfer 100 µL from well A1 to well B1 on a 96-well "
         +:+ "plate in slot 2." |} ].

Definition notebook0 : OpenAI.Notebook :=
  {| OpenAI.messages := chat_history; OpenAI.stdout := [] |}.

Definition tool_call (call_id function_name payload : string)
    : OpenAI.ChatCompletionMessageToolCall :=
  {| OpenAI.id := call_id;
     OpenAI.function := {| OpenAI.arguments := payload;
                           OpenAI.name := function_name |};
     OpenAI.type := "function" |}.

(** A call of the registered function with a well-formed payload. *)
Definition transfer_call : OpenAI.ChatCompletionMessageToolCall :=
  tool_call "call_1" "generate_opentrons_code"
    ("{" +:+ q "command" +:+ ":" +:+ q "transfer 100 uL from well A1 to well B1"
     +:+ "}").

(** A call of a function that is not in [available_functions]. *)
Definition unknown_call : OpenAI.ChatCompletionMessageToolCall :=
  tool_call "call_2" "read_deck_state" "{}".

(** A call whose payload is cut off in the middle of a string. *)
Definition truncated_call : OpenAI.ChatCompletionMessageToolCall :=
  tool_call "call_3" "generate_opentrons_code"
    ("{" +:+ q "command" +:+ ":" +:+ dq +:+ "transfer 100").

(** A call whose payload is JSON, with an argument the function does not
    take. *)
Definition misnamed_call : OpenAI.ChatCompletionMessageToolCall :=
  tool_call "call_4" "generate_opentrons_code"
    ("{" +:+ q "cmd" +:+ ":" +:+ q "transfer 100 uL" +:+ "}").

(** The registry of the notebook, with the recorded text of the deck state. *)
Definition function_registry
    : gmap string (list (string * json) -> result string) :=
  OpenAI.available_functions default_deck_state_dump.

(** The message the loop appends for [transfer_call], and the notebook
    after that call has been dispatched from [notebook0]. *)
Definition transfer_reply : OpenAI.ChatMessage :=
  {| OpenAI.role := "function";
     OpenAI.name_of := Some "generate_opentrons_code";
     OpenAI.content :=
       OpenAI.generate_opentrons_code_text default_deck_state_dump
         (JStr "transfer 100 uL from well A1 to well B1") |}.

Definition after_transfer : OpenAI.Notebook :=
  {| OpenAI.messages := chat_history ++ [transfer_reply];
     OpenAI.stdout :=
       ["Generated Opentrons Code:" +:+ nl +:+ OpenAI.content transfer_reply] |}.

(** A model client that explains whatever it is shown. *)
Definition explaining_model (history : list OpenAI.ChatMessage)
    : result (option string) :=
  Return (Some "The code loads the labware and transfers the liquid.").

(** A configuration without a ['modules'] section. *)
Definition no_modules_config_string : string :=
  "{" +:+ q "api_version" +:+ ": " +:+ q "2.17" +:+ ", " +:+ q "pipettes" +:+
  ": {" +:+ q "left" +:+ ": {" +:+ q "type" +:+ ": " +:+
  q "p300_single_gen2" +:+ ", " +:+ q "tip_racks" +:+ ": [" +:+ q "1" +:+
  "]}}, " +:+ q "labware" +:+ ": {" +:+ q "1" +:+ ": {" +:+ q "type" +:+
  ": " +:+ q "opentrons_96_tiprack_300ul" +:+ "}}}".

Definition no_modules_items : list (string * json) :=
  [ ("api_version", JStr "2.17");
    ("pipettes",
     JDict [ ("left", JDict [ ("type", JStr "p300_single_gen2");
                              ("tip_racks", JList [JStr "1"]) ]) ]);
    ("labware",
     JDict [ ("1", JDict [("type", JStr "opentrons_96_tiprack_300ul")]) ]) ].

(** A configuration without a ['labware'] section. *)
Definition no_labware_config_string : string :=
  "{" +:+ q "api_version" +:+ ": " +:+ q "2.17" +:+ ", " +:+ q "pipettes" +:+
  ": {" +:+ q "left" +:+ ": {" +:+ q "type" +:+ ": " +:+
  q "p300_single_gen2" +:+ ", " +:+ q "tip_racks" +:+ ": [" +:+ q "1" +:+
  "]}}}".

Definition no_labware_items : list (string * json) :=
  [ ("api_version", JStr "2.17");
    ("pipettes",
     JDict [ ("left", JDict [ ("type", JStr "p300_single_gen2");
                              ("tip_racks", JList [JStr "1"]) ]) ]) ].

(** A configuration whose pipette asks for the tip rack in slot 9, which
    the ['labware'] section does not have. *)
Definition absent_slot_config_string : string :=
  "{" +:+ q "api_version" +:+ ": " +:+ q "2.17" +:+ ", " +:+ q "pipettes" +:+
  ": {" +:+ q "left" +:+ ": {" +:+ q "type" +:+ ": " +:+
  q "p300_single_gen2" +:+ ", " +:+ q "tip_racks" +:+ ": [" +:+ q "9" +:+
  "]}}, " +:+ q "labware" +:+ ": {" +:+ q "1" +:+ ": {" +:+ q "type" +:+
  ": " +:+ q "opentrons_96_tiprack_300ul" +:+ "}}}".

Definition absent_slot_items : list (string * json) :=
  [ ("api_version", JStr "2.17");
    ("pipettes",
     JDict [ ("left", JDict [ ("type", JStr "p300_single_gen2");
                              ("tip_racks", JList [JStr "9"]) ]) ]);
    ("labware",
     JDict [ ("1", JDict [("type", JStr "opentrons_96_tiprack_300ul")]) ]) ].

(** A configuration without a ['labware'] section whose modules are given
    by name only, as in [default_deck_state] of the OpenAI notebook. *)
Definition flat_modules_config_string : string :=
  "{" +:+ q "api_version" +:+ ": " +:+ q "2.17" +:+ ", " +:+ q "pipettes" +:+
  ": {}, " +:+ q "modules" +:+ ": {" +:+ q "1" +:+ ": " +:+
  q "temperature module" +:+ "}}".

Definition flat_modules_items : list (string * json) :=
  [ ("api_version", JStr "2.17");
    ("pipettes", JDict []);
    ("modules", JDict [("1", JStr "temperature module")]) ].

(** A configuration whose labware is given by name only, as in
    [default_deck_state], and whose pipette asks for the tip racks in slot 1
    and in slot 7, which the ['labware'] section does not have. *)
Definition flat_labware_config_string : string :=
  "{" +:+ q "api_version" +:+ ": " +:+ q "2.13" +:+ ", " +:+ q "pipettes" +:+
  ": {" +:+ q "left" +:+ ": {" +:+ q "type" +:+ ": " +:+ q "p300_single" +:+
  ", " +:+ q "tip_racks" +:+ ": [" +:+ q "1" +:+ ", " +:+ q "7" +:+
  "]}}, " +:+ q "labware" +:+ ": {" +:+ q "1" +:+ ": " +:+
  q "opentrons_96_tiprack_300ul" +:+ "}}".

Definition flat_labware_items : list (string * json) :=
  [ ("api_version", JStr "2.13");
    ("pipettes",
     JDict [ ("left", JDict [ ("type", JStr "p300_single");
                              ("tip_racks", JList [JStr "1"; JStr "7"]) ]) ]);
    ("labware", JDict [("1", JStr "opentrons_96_tiprack_300ul")]) ].

(** A file system that holds these files. *)
Definition deck_files (path : string) : result string :=
  if String.eqb path "opentrons_config.json" then Return opentrons_config_string
  else if String.eqb path "no_modules.json" then Return no_modules_config_string
  else if String.eqb path "no_labware.json" then Return no_labware_config_string
  else if String.eqb path "absent_slot.json" then Return absent_slot_config_string
  else if String.eqb path "flat_modules.json" then Return flat_modules_config_string
  else if String.eqb path "flat_labware.json" then Return flat_labware_config_string
  else Raise OSError.

(** What the notebooks print as the result of the tool [InitializeDeck] on
    that file. *)
Definition recorded_deck_code : string :=
  join nl [
    "from opentrons import protocol_api";
    "";
    "metadata = {'apiLevel': '2.17'}";
    "";
    "def run(protocol: protocol_api.ProtocolContext):";
    "    left_pipette = protocol.load_instrument('p300_single_gen2', 'left', tip_racks=[protocol.load_labware('opentrons_96_tiprack_300ul', '1')])";
    "    right_pipette = protocol.load_instrument('p20_multi_gen2', 'right', tip_racks=[protocol.load_labware('opentrons_96_tiprack_20ul', '2')])";
    "    thermocycler = protocol.load_module('thermocyclerModuleV2', '7')";
    "    1_labware = protocol.load_labware('opentrons_96_tiprack_300ul', '1')";
    "    2_labware = protocol.load_labware('opentrons_96_tiprack_20ul', '2')";
    "    3_labware = protocol.load_labware('corning_96_wellplate_360ul_flat', '3')";
    "    5_labware = protocol.load_labware('nest_12_reservoir_15ml', '5')";
    "    7_labware = thermocycler.load_labware('nest_96_wellplate_100ul_pcr_full_skirt')" ].

End Samples.

(** ** Complete configurations

    What [initialize_deck] reads in a configuration: every key it
    subscripts, in every entry it goes through. *)

Module Complete.

Import Deck.






(** The four keys of a configuration that [initialize_deck] looks up. *)
Definition deck_keys : list string :=
  ["api_version"; "pipettes"; "modules"; "labware"].

(** [text] occurs in [whole]: [whole] is [text] with something before and
    something after. *)
Definition occurs_in (text whole : string) : Prop :=
  exists before after, whole = before +:+ text +:+ after.

End Complete.

(** ** What the dispatch cell leaves behind *)

Module Appends.

Import OpenAI.

(** A message that the loop can have appended: the result of a function of
    the registry. *)
Definition function_result
    (registry : gmap string (list (string * json) -> result string))
    (m : ChatMessage) : Prop :=
  role m = "function"
  /\ exists function_name,
       name_of m = Some function_name /\ is_Some (registry !! function_name).

(** The notebook [after] is the notebook [before] with the messages [new]
    appended and the texts [printed] printed. *)
Definition extends (before after : Notebook) (new : list ChatMessage)
    (printed : list string) : Prop :=
  messages after = messages before ++ new
  /\ stdout after = stdout before ++ printed.

End Appends.

(** ** More sample data *)

Module MoreSamples.

Import Samples.

(** The notebooks' configuration with its sections in another order and
    without the key ['robot_type']. *)
Definition reordered_config_string : string :=
  "{" +:+ q "labware" +:+ ": {" +:+ q "1" +:+ ": {" +:+ q "type" +:+ ": " +:+
  q "opentrons_96_tiprack_300ul" +:+ "}, " +:+ q "2" +:+ ": {" +:+
  q "type" +:+ ": " +:+ q "opentrons_96_tiprack_20ul" +:+ "}, " +:+ q "3" +:+
  ": {" +:+ q "type" +:+ ": " +:+ q "corning_96_wellplate_360ul_flat" +:+
  "}, " +:+ q "5" +:+ ": {" +:+ q "type" +:+ ": " +:+
  q "nest_12_reservoir_15ml" +:+ "}, " +:+ q "7" +:+ ": {" +:+ q "type" +:+
  ": " +:+ q "nest_96_wellplate_100ul_pcr_full_skirt" +:+ ", " +:+
  q "parent_module" +:+ ": " +:+ q "thermocycler" +:+ "}}, " +:+
  q "modules" +:+ ": {" +:+ q "thermocycler" +:+ ": {" +:+ q "type" +:+
  ": " +:+ q "thermocyclerModuleV2" +:+ ", " +:+ q "location" +:+ ": [" +:+
  q "7" +:+ "]}}, " +:+ q "pipettes" +:+ ": {" +:+ q "left" +:+ ": {" +:+
  q "type" +:+ ": " +:+ q "p300_single_gen2" +:+ ", " +:+ q "tip_racks" +:+
  ": [" +:+ q "1" +:+ "]}, " +:+ q "right" +:+ ": {" +:+ q "type" +:+
  ": " +:+ q "p20_multi_gen2" +:+ ", " +:+ q "tip_racks" +:+ ": [" +:+
  q "2" +:+ "]}}, " +:+ q "api_version" +:+ ": " +:+ q "2.17" +:+ "}".

Definition reordered_items : list (string * json) :=
  [ ("labware", JDict opentrons_labware);
    ("modules",
     JDict
       [ ("thermocycler", JDict [ ("type", JStr "thermocyclerModuleV2");
                                  ("location", JList [JStr "7"]) ]) ]);
    ("pipettes",
     JDict
       [ ("left", JDict [ ("type", JStr "p300_single_gen2");
                          ("tip_racks", JList [JStr "1"]) ]);
         ("right", JDict [ ("type", JStr "p20_multi_gen2");
                           ("tip_racks", JList [JStr "2"]) ]) ]);
    ("api_version", JStr "2.17") ].

(** The items of the notebooks' configuration. *)
Definition opentrons_items : list (string * json) :=
  match opentrons_config with
  | JDict items => items
  | _ => []
  end.

(** The files of [deck_files], and three more: the configuration above, a
    file that holds a JSON list and a file that does not hold JSON. *)
Definition more_files (path : string) : result string :=
  if String.eqb path "reordered.json" then Return reordered_config_string
  else if String.eqb path "list.json" then Return "[1, 2]"
  else if String.eqb path "broken.json" then Return "{api_version: 2.17}"
  else deck_files path.

End MoreSamples.

(** * Properties *)

(** ** The router *)

Module RouterFacts.

Import Samples.

Lemma should_continue_last (state : MessagesState) (m : Message) :
  last (messages state) = Some m ->
  should_continue state =
    (calls ← getattr_tool_calls m;
     if truthy calls then Return "tools" else Return END).
Proof.
  intros Hlast. unfold should_continue, index_last. now rewrite Hlast.
Qed.

Lemma should_continue_empty (state : MessagesState) :
  messages state = [] -> should_continue state = Raise IndexError.
Proof.
  intros Hnil. unfold should_continue. now rewrite Hnil.
Qed.

(** C1: the router is a function of the last message alone.  Whenever the
    last message of the state carries the list of tool calls [calls] (so in
    particular when it is an assistant message), [should_continue] returns
    ["tools"] if [calls] has at least one element and [END] if it has none;
    two states with the same last message are routed alike.  It is a pure
    function: it returns a value and changes nothing. *)
Theorem should_continue_routes (state : MessagesState) (m : Message)
    (calls : list ToolCall) :
  last (messages state) = Some m ->
  tool_calls m = Some calls ->
  (forall call rest, calls = call :: rest -> should_continue state = Return "tools")
  /\ (calls = [] -> should_continue state = Return END)
  /\ (forall state', last (messages state') = Some m ->
        should_continue state' = should_continue state).
Proof.
  intros Hlast Hcalls.
  pose proof (should_continue_last state m Hlast) as Heq.
  unfold getattr_tool_calls in Heq. rewrite Hcalls in Heq. cbn in Heq.
  split; [|split].
  - intros call rest ->. exact Heq.
  - intros ->. exact Heq.
  - intros state' Hlast'. rewrite Heq.
    rewrite (should_continue_last state' m Hlast').
    unfold getattr_tool_calls. now rewrite Hcalls.
Qed.

Lemma should_continue_routes_witness :
  should_continue
    {| messages := [human_message "hi"; ai_message "" [search_call]] |}
  = Return "tools"
  /\ should_continue
       {| messages := [human_message "hi"; ai_message "hello" []] |}
     = Return END.
Proof.
  split.
  - exact (proj1 (should_continue_routes
      {| messages := [human_message "hi"; ai_message "" [search_call]] |}
      (ai_message "" [search_call]) [search_call] eq_refl eq_refl)
      search_call [] eq_refl).
  - exact (proj1 (proj2 (should_continue_routes
      {| messages := [human_message "hi"; ai_message "hello" []] |}
      (ai_message "hello" []) [] eq_refl eq_refl)) eq_refl).
Defined.

(** C9: the router is partial.  On a state with an empty message list it
    raises [IndexError] (the access [messages[-1]]) and does not return
    [END]; on a state whose last message has no [tool_calls] attribute it
    raises [AttributeError]; it never looks at the role of the last message,
    so two last messages that differ only in their role are routed alike; and
    it returns a route exactly when the message list is not empty and its
    last element carries a [tool_calls] attribute. *)
Theorem should_continue_partial (state : MessagesState) :
  (messages state = [] -> should_continue state = Raise IndexError)
  /\ (forall m, last (messages state) = Some m -> tool_calls m = None ->
        should_continue state = Raise (AttributeError "tool_calls"))
  /\ (forall m r state',
        last (messages state) = Some m ->
        last (messages state') =
          Some {| role := r; content := content m;
                  tool_calls := tool_calls m;
                  tool_call_id := tool_call_id m |} ->
        should_continue state' = should_continue state)
  /\ ((exists route, should_continue state = Return route) <->
      (exists m calls, last (messages state) = Some m
                       /\ tool_calls m = Some calls)).
Proof.
  split; [apply should_continue_empty|].
  split.
  { intros m Hlast Hnone. rewrite (should_continue_last _ _ Hlast).
    unfold getattr_tool_calls. now rewrite Hnone. }
  split.
  { intros m r state' Hlast Hlast'.
    rewrite (should_continue_last _ _ Hlast), (should_continue_last _ _ Hlast').
    reflexivity. }
  split.
  - intros [route Hroute].
    destruct (last (messages state)) as [m|] eqn:Hlast.
    + rewrite (should_continue_last _ _ Hlast) in Hroute.
      unfold getattr_tool_calls in Hroute.
      destruct (tool_calls m) as [calls|] eqn:Hcalls; [|discriminate].
      now exists m, calls.
    + unfold should_continue, index_last in Hroute.
      rewrite Hlast in Hroute. discriminate.
  - intros (m & calls & Hlast & Hcalls).
    rewrite (should_continue_last _ _ Hlast).
    unfold getattr_tool_calls. rewrite Hcalls. cbn.
    destruct (truthy calls); eauto.
Qed.

Lemma should_continue_partial_witness :
  should_continue {| messages := [] |} = Raise IndexError
  /\ should_continue {| messages := [human_message "hi"] |}
     = Raise (AttributeError "tool_calls").
Proof.
  split.
  - exact (proj1 (should_continue_partial {| messages := [] |}) eq_refl).
  - exact (proj1 (proj2 (should_continue_partial
      {| messages := [human_message "hi"] |}))
      (human_message "hi") eq_refl eq_refl).
Defined.

End RouterFacts.

(** ** The checkpoint store and the executor *)

Module EngineFacts.

Import Engine Samples.

Lemma get_put (thread_id : string) (s : MessagesState) (store : CheckpointStore) :
  get thread_id (put thread_id s store) = Found s.
Proof. unfold get, put. now rewrite lookup_insert_eq. Qed.

Lemma get_put_other (t t' : string) (s : MessagesState) (store : CheckpointStore) :
  t <> t' -> get t' (put t s store) = get t' store.
Proof. intros Hne. unfold get, put. now rewrite lookup_insert_ne. Qed.

Lemma put_all_snoc (writes : list (string * MessagesState)) (t : string)
    (s : MessagesState) :
  put_all (writes ++ [(t, s)]) = put t s (put_all writes).
Proof. unfold put_all. now rewrite foldl_app. Qed.

Lemma get_put_all_unknown (writes : list (string * MessagesState)) (t : string) :
  t ∉ writes.*1 -> get t (put_all writes) = NotFound.
Proof.
  induction writes as [|[t' s'] writes IH] using rev_ind; intros Hnotin.
  - reflexivity.
  - rewrite put_all_snoc. rewrite fmap_app in Hnotin. cbn in Hnotin.
    rewrite get_put_other.
    + apply IH. intros Hin. apply Hnotin. apply elem_of_app. now left.
    + intros ->. apply Hnotin. apply elem_of_app. right. apply list_elem_of_singleton.
      reflexivity.
Qed.

(** C5: round trip through the checkpoint store.  For every thread id [t],
    state [s] and store, [get t] after [put t s] finds a state equal to [s];
    a second [put] on the same thread replaces the first snapshot; and [get]
    answers NotFound for a thread id that no [put] has written. *)
Theorem checkpoint_round_trip (t : string) (s : MessagesState)
    (store : CheckpointStore) :
  get t (put t s store) = Found s
  /\ (forall s', put t s (put t s' store) = put t s store
                 /\ get t (put t s (put t s' store)) = Found s)
  /\ (forall writes : list (string * MessagesState),
        t ∉ writes.*1 -> get t (put_all writes) = NotFound).
Proof.
  split; [apply get_put|]. split.
  - intros s'. split; [|apply get_put].
    unfold put. apply insert_insert_eq.
  - intros writes. apply get_put_all_unknown.
Qed.

Section Workflow.

Context (model : list Message -> result Message) (registry : gmap string Tool).

Let app : StateGraph := workflow model (tool_node registry).

Lemma workflow_agent_node :
  nodes app !! "agent" = Some (call_model model)
  /\ edges app !! "agent" = None
  /\ branches app !! "agent" = Some should_continue.
Proof. repeat split. Qed.

Lemma workflow_tools_node :
  nodes app !! "tools" = Some (tool_node registry)
  /\ edges app !! "tools" = Some "agent".
Proof. repeat split. Qed.

Lemma workflow_other_node (node_id : string) :
  node_id <> "agent" -> node_id <> "tools" -> nodes app !! node_id = None.
Proof.
  intros Ha Ht. subst app. unfold workflow. cbn.
  rewrite lookup_insert_ne by congruence.
  rewrite lookup_insert_ne by congruence.
  apply lookup_empty.
Qed.

Lemma call_model_output (s out : MessagesState) :
  call_model model s = Return out ->
  exists response, model (messages s) = Return response
                   /\ messages out = [response].
Proof.
  unfold call_model. destruct (model (messages s)) as [response|e] eqn:Hm; cbn.
  - intros [= <-]. now exists response.
  - discriminate.
Qed.

Lemma tool_node_output (s out : MessagesState) :
  tool_node registry s = Return out ->
  exists m call calls,
    last (messages s) = Some m
    /\ tool_calls m = Some (call :: calls)
    /\ messages out = tool_result registry <$> (call :: calls).
Proof.
  unfold tool_node. destruct (last (messages s)) as [m|]; [|discriminate].
  destruct (tool_calls m) as [[|call calls]|] eqn:Hc; try discriminate.
  intros [= <-]. now exists m, call, calls.
Qed.

Lemma step_state (g : StateGraph) (thread_id : string) (r r' : Run) (next : Target) :
  step g thread_id r = Return (next, r') ->
  exists executor output,
    nodes g !! current r = Some executor
    /\ executor (state r) = Return output
    /\ messages (state r') = messages (state r) ++ messages output
    /\ steps r' = S (steps r)
    /\ store r' = put thread_id (state r') (store r).
Proof.
  unfold step. destruct (nodes g !! current r) as [executor|]; [|discriminate].
  destruct (executor (state r)) as [output|e] eqn:Hex; [|discriminate]. cbn.
  destruct (next_target g (current r) _) as [t|e]; [|discriminate]. cbn.
  intros [= <- <-]. exists executor, output. cbn. repeat split; auto.
Qed.

Lemma workflow_step_appends (thread_id : string) (r r' : Run) (next : Target) :
  step app thread_id r = Return (next, r') ->
  strict_prefix (messages (state r)) (messages (state r')).
Proof.
  intros Hstep. apply step_state in Hstep as (executor & output & Hn & Hex & Hm & _).
  exists (messages output). split; [|exact Hm].
  destruct (decide (current r = "agent")) as [Ha|Ha].
  - rewrite Ha in Hn. cbn in Hn. injection Hn as <-.
    apply call_model_output in Hex as (response & _ & ->). discriminate.
  - destruct (decide (current r = "tools")) as [Ht|Ht].
    + rewrite Ht in Hn. cbn in Hn. injection Hn as <-.
      apply tool_node_output in Hex as (m & call & calls & _ & _ & ->).
      discriminate.
    + rewrite (workflow_other_node _ Ha Ht) in Hn. discriminate.
Qed.

(** C6: the message list only grows by appending.  Take any run of the
    notebook's graph from any run state [r]: in the sequence made of the
    conversation state before the first step and the states after each
    completed step, the message list of every state is a strict prefix of the
    message list of the state that follows it.  So a step appends at least
    one message and never reorders, changes or drops an earlier one. *)
Theorem messages_append_only (thread_id : string) (budget : nat) (r : Run)
    (i : nat) (s1 s2 : MessagesState) :
  (state r :: run_states app thread_id budget r) !! i = Some s1 ->
  (state r :: run_states app thread_id budget r) !! S i = Some s2 ->
  strict_prefix (messages s1) (messages s2).
Proof.
  revert r i. induction budget as [|budget IH]; intros r i H1 H2.
  - cbn in H2. discriminate H2.
  - cbn [run_states] in H1, H2.
    destruct (step app thread_id r) as [[next r']|e] eqn:Hstep.
    + pose proof (workflow_step_appends _ _ _ _ Hstep) as Hpre.
      destruct next as [node_id|].
      * destruct i as [|i].
        -- cbn in H1, H2. injection H1 as <-. injection H2 as <-. exact Hpre.
        -- cbn in H1, H2. apply (IH r' i); assumption.
      * destruct i as [|i].
        -- cbn in H1, H2. injection H1 as <-. injection H2 as <-. exact Hpre.
        -- cbn in H2. discriminate H2.
    + cbn in H2. discriminate H2.
Qed.

(** The state a terminated run ends in is the last of its [run_states]. *)
Lemma run_loop_final_state (g : StateGraph) (thread_id : string) (budget : nat)
    (r final : Run) :
  run_loop g thread_id budget r = Terminated final ->
  last (run_states g thread_id budget r) = Some (state final).
Proof.
  revert r. induction budget as [|budget IH]; intros r; cbn; [discriminate|].
  destruct (step g thread_id r) as [[[node_id|] r']|e]; try discriminate.
  - intros Hrun. specialize (IH _ Hrun).
    destruct (run_states g thread_id budget r'); [discriminate|exact IH].
  - now intros [= <-].
Qed.

(** C7: a fresh thread answered without tools.  When the store holds no
    checkpoint for the thread, the run starts from the one user message; if
    the model's reply to it carries zero tool calls, then, for any step
    ceiling of at least one, the run terminates (the router returns [END])
    after exactly one step, its final state holds exactly the two messages
    user message, reply, in that order, and that state is the thread's
    checkpoint. *)
Theorem fresh_thread_direct_answer (max_steps : nat) (thread_id : string)
    (user_message reply : Message) (store0 : CheckpointStore) :
  get thread_id store0 = NotFound ->
  model [user_message] = Return reply ->
  tool_calls reply = Some [] ->
  (1 <= max_steps)%nat ->
  exists final,
    start_or_resume app max_steps thread_id user_message store0 = Terminated final
    /\ steps final = 1%nat
    /\ messages (state final) = [user_message; reply]
    /\ should_continue (state final) = Return END
    /\ get thread_id (store final) = Found (state final).
Proof.
  intros Hfresh Hmodel Hcalls Hcap.
  destruct max_steps as [|budget]; [lia|].
  unfold start_or_resume. rewrite Hfresh. cbn [entry_point app workflow add_edge
    add_conditional_edges set_entry_point].
  assert (Hroute : should_continue {| messages := [user_message; reply] |} = Return END).
  { unfold should_continue, index_last, getattr_tool_calls. cbn.
    now rewrite Hcalls. }
  cbn [run_loop]. unfold step. cbn [current state].
  destruct workflow_agent_node as (-> & He & Hb).
  unfold call_model. cbn [messages]. rewrite Hmodel. cbn.
  unfold next_target. fold app. rewrite He, Hb. cbn [messages app_nil_r].
  change ([user_message] ++ [reply]) with [user_message; reply].
  rewrite Hroute. cbn.
  eexists. split; [reflexivity|]. cbn.
  repeat split; [exact Hroute|apply get_put].
Qed.

End Workflow.

Lemma messages_append_only_witness :
  strict_prefix
    [question; ai_message "" [search_call]]
    [question; ai_message "" [search_call];
     tool_result sample_registry search_call].
Proof.
  exact (messages_append_only searching_model sample_registry "42" 5
           (fresh_run "agent" question) 1
           {| messages := [question; ai_message "" [search_call]] |}
           {| messages := [question; ai_message "" [search_call];
                           tool_result sample_registry search_call] |}
           eq_refl eq_refl).
Defined.

Lemma fresh_thread_direct_answer_witness :
  exists final,
    start_or_resume (workflow direct_model (tool_node sample_registry)) 25 "t1"
      question ∅ = Terminated final
    /\ steps final = 1%nat
    /\ messages (state final) = [question; ai_message "Use pipette.blow_out()." []]
    /\ should_continue (state final) = Return END
    /\ get "t1" (store final) = Found (state final).
Proof.
  apply (fresh_thread_direct_answer direct_model sample_registry 25 "t1" question
           (ai_message "Use pipette.blow_out()." []) ∅).
  - reflexivity.
  - reflexivity.
  - reflexivity.
  - lia.
Defined.

Lemma checkpoint_round_trip_witness :
  get "t1" (put "t1" {| messages := [question] |} ∅)
  = Found {| messages := [question] |}
  /\ get "t1" (put_all [("t2", {| messages := [question] |})]) = NotFound.
Proof.
  split.
  - exact (proj1 (checkpoint_round_trip "t1" {| messages := [question] |} ∅)).
  - apply (proj2 (proj2 (checkpoint_round_trip "t1" {| messages := [] |} ∅))).
    cbn. intros Hin. apply list_elem_of_singleton in Hin. discriminate Hin.
Defined.

End EngineFacts.

(** ** The dispatch cell of the OpenAI notebook *)

Module DispatchFacts.

Import OpenAI Samples.

Section Loop.

Context (json_loads : string -> result json)
        (registry : gmap string (list (string * json) -> result string))
        (chat_create : list ChatMessage -> result (option string)).

Local Abbreviation dispatch := (dispatch json_loads registry).
Local Abbreviation dispatch_loop := (dispatch_loop json_loads registry).
Local Abbreviation dispatch_cell := (dispatch_cell json_loads registry chat_create).

Lemma dispatch_parse_error (tool_call : ChatCompletionMessageToolCall)
    (e : exception) (nb : Notebook) :
  json_loads (arguments (function tool_call)) = Raise e ->
  dispatch tool_call nb = (Raise e, nb).
Proof.
  intros Hparse. unfold OpenAI.dispatch, mbind, cell_bind, lift.
  now rewrite Hparse.
Qed.

Lemma dispatch_unknown (tool_call : ChatCompletionMessageToolCall)
    (function_args : json) (nb : Notebook) :
  json_loads (arguments (function tool_call)) = Return function_args ->
  registry !! name (function tool_call) = None ->
  dispatch tool_call nb = (Return tt, nb).
Proof.
  intros Hparse Hname. unfold OpenAI.dispatch, mbind, cell_bind, lift.
  now rewrite Hparse, Hname.
Qed.

Lemma dispatch_call_error (tool_call : ChatCompletionMessageToolCall)
    (function_args : json) (f : list (string * json) -> result string)
    (e : exception) (nb : Notebook) :
  json_loads (arguments (function tool_call)) = Return function_args ->
  registry !! name (function tool_call) = Some f ->
  call_with f function_args = Raise e ->
  dispatch tool_call nb = (Raise e, nb).
Proof.
  intros Hparse Hname Hcall. unfold OpenAI.dispatch, mbind, cell_bind, lift.
  now rewrite Hparse, Hname, Hcall.
Qed.

Lemma dispatch_known (tool_call : ChatCompletionMessageToolCall)
    (function_args : json) (f : list (string * json) -> result string)
    (function_response : string) (nb : Notebook) :
  json_loads (arguments (function tool_call)) = Return function_args ->
  registry !! name (function tool_call) = Some f ->
  call_with f function_args = Return function_response ->
  dispatch tool_call nb =
    (Return tt,
     {| messages := messages nb ++
          [{| role := "function"; name_of := Some (name (function tool_call));
              content := function_response |}];
        stdout := stdout nb ++
          ["Generated Opentrons Code:" +:+ nl +:+ function_response] |}).
Proof.
  intros Hparse Hname Hcall.
  unfold OpenAI.dispatch, mbind, cell_bind, lift, print, append.
  now rewrite Hparse, Hname, Hcall.
Qed.

Lemma dispatch_loop_cons (tool_call : ChatCompletionMessageToolCall)
    (rest : list ChatCompletionMessageToolCall) (nb : Notebook) :
  dispatch_loop (tool_call :: rest) nb =
    match dispatch tool_call nb with
    | (Return _, nb') => dispatch_loop rest nb'
    | (Raise e, nb') => (Raise e, nb')
    end.
Proof. reflexivity. Qed.

Lemma dispatch_loop_app (pre post : list ChatCompletionMessageToolCall)
    (nb : Notebook) :
  dispatch_loop (pre ++ post) nb =
    match dispatch_loop pre nb with
    | (Return _, nb') => dispatch_loop post nb'
    | (Raise e, nb') => (Raise e, nb')
    end.
Proof.
  revert nb. induction pre as [|tool_call pre IH]; intros nb.
  - reflexivity.
  - rewrite <- app_comm_cons, !dispatch_loop_cons.
    destruct (dispatch tool_call nb) as [[[]|e] nb']; [apply IH|reflexivity].
Qed.

Lemma dispatch_succeeds (tool_call : ChatCompletionMessageToolCall) (nb : Notebook) :
  succeeds json_loads registry tool_call ->
  exists nb',
    dispatch tool_call nb = (Return tt, nb')
    /\ messages nb' =
         messages nb ++ option_list (reply_of json_loads registry tool_call).
Proof.
  intros (function_args & Hparse & Hcall). unfold reply_of.
  destruct (registry !! name (function tool_call)) as [f|] eqn:Hname.
  - destruct (Hcall f eq_refl) as [function_response Hresponse].
    eexists. split.
    + eapply dispatch_known; eassumption.
    + rewrite Hparse. cbn. now rewrite Hresponse.
  - exists nb. split.
    + eapply dispatch_unknown; eassumption.
    + cbn. now rewrite app_nil_r.
Qed.

Lemma reply_of_registered (tool_call : ChatCompletionMessageToolCall) :
  succeeds json_loads registry tool_call ->
  option_list (reply_of json_loads registry tool_call) =
    if registered registry tool_call
    then [{| role := "function"; name_of := Some (name (function tool_call));
             content := default "" (content <$> reply_of json_loads registry tool_call) |}]
    else [].
Proof.
  intros (function_args & Hparse & Hcall). unfold reply_of, registered.
  destruct (registry !! name (function tool_call)) as [f|] eqn:Hname.
  - destruct (Hcall f eq_refl) as [function_response Hresponse].
    rewrite Hparse. cbn. rewrite Hresponse. reflexivity.
  - reflexivity.
Qed.

(** C2 (as amended): the dispatch loop answers the registered calls, in
    order.  When every call goes through (its payload parses and the
    function registered under its name, if any, returns), the loop finishes
    and appends to [messages] exactly one message of role ["function"] for
    each tool call whose name is in the registry, named after the call and in
    the order of the calls; a call whose name is not in the registry
    contributes no message.  So [n] calls give [n] messages only when all
    [n] names are registered. *)
Theorem dispatch_loop_replies (tool_calls : list ChatCompletionMessageToolCall)
    (nb : Notebook) :
  Forall (succeeds json_loads registry) tool_calls ->
  exists nb' new,
    dispatch_loop tool_calls nb = (Return tt, nb')
    /\ messages nb' = messages nb ++ new
    /\ new = omap (reply_of json_loads registry) tool_calls
    /\ name_of <$> new =
         (fun c => Some (name (function c)))
           <$> List.filter (registered registry) tool_calls
    /\ Forall (fun m => role m = "function") new
    /\ length new = length (List.filter (registered registry) tool_calls)
    /\ (length new <= length tool_calls)%nat.
Proof.
  intros Hall. revert nb.
  induction Hall as [|tool_call rest Hcall Hrest IH]; intros nb.
  - exists nb, []. cbn. rewrite app_nil_r. repeat split; auto.
  - destruct (dispatch_succeeds tool_call nb Hcall) as (nb1 & Hstep & Hmsgs).
    destruct (IH nb1) as (nb' & new & Hloop & Hnew & -> & Hnames & Hroles & Hlen & Hle).
    pose proof (reply_of_registered tool_call Hcall) as Hreply.
    exists nb', (option_list (reply_of json_loads registry tool_call)
                 ++ omap (reply_of json_loads registry) rest).
    split. { rewrite dispatch_loop_cons, Hstep. exact Hloop. }
    split. { rewrite Hnew, Hmsgs. now rewrite app_assoc. }
    split. { cbn. now destruct (reply_of json_loads registry tool_call). }
    rewrite Hreply. cbn [List.filter].
    destruct (registered registry tool_call); cbn.
    + repeat split; [now rewrite Hnames|constructor; auto|now rewrite Hlen|lia].
    + repeat split; [exact Hnames|exact Hroles|exact Hlen|lia].
Qed.

(** C3 (as amended): a call of an unregistered function is skipped.  If the
    name of a tool call is not in the registry and its payload parses, the
    loop appends no message for it and prints nothing: the run is not
    aborted, the other calls are dispatched as if the call were not in the
    list, and when it is the only call the model is asked again with
    [messages] unchanged. *)
Theorem dispatch_skips_unknown (tool_call : ChatCompletionMessageToolCall)
    (function_args : json) :
  json_loads (arguments (function tool_call)) = Return function_args ->
  registry !! name (function tool_call) = None ->
  (forall nb, dispatch tool_call nb = (Return tt, nb))
  /\ (forall pre post nb,
        dispatch_loop (pre ++ tool_call :: post) nb = dispatch_loop (pre ++ post) nb)
  /\ (forall response_content reply nb,
        chat_create (messages nb) = Return reply ->
        dispatch_cell response_content (Some [tool_call]) nb =
          (Return tt,
           {| messages := messages nb;
              stdout := stdout nb ++ [nl +:+ "Explanation of the generated code:";
                                      print_text reply] |})).
Proof.
  intros Hparse Hname.
  assert (Hskip : forall nb, dispatch tool_call nb = (Return tt, nb)).
  { intros nb. eapply dispatch_unknown; eassumption. }
  split; [exact Hskip|]. split.
  - intros pre post nb. rewrite !dispatch_loop_app.
    destruct (dispatch_loop pre nb) as [[[]|e] nb']; [|reflexivity].
    now rewrite dispatch_loop_cons, Hskip.
  - intros response_content reply nb Hreply.
    unfold OpenAI.dispatch_cell, mbind, cell_bind.
    rewrite dispatch_loop_cons, Hskip. cbn.
    unfold lift. rewrite Hreply. cbn. unfold print. cbn. now rewrite <- app_assoc.
Qed.

(** C4 (as amended): a payload that does not parse aborts the cell.  If
    [json.loads] raises [e] on the payload of a tool call, or the payload
    parses and the registered function raises [e] on it (its arguments do not
    fit), then dispatching the call raises [e] and appends no message; the
    loop stops there, keeping what the earlier calls appended, and the cell
    raises [e] without asking the model again. *)
Theorem dispatch_aborts_on_malformed (tool_call : ChatCompletionMessageToolCall)
    (e : exception) :
  (json_loads (arguments (function tool_call)) = Raise e
   \/ exists function_args f,
        json_loads (arguments (function tool_call)) = Return function_args
        /\ registry !! name (function tool_call) = Some f
        /\ call_with f function_args = Raise e) ->
  (forall nb, dispatch tool_call nb = (Raise e, nb))
  /\ (forall pre post nb nb',
        dispatch_loop pre nb = (Return tt, nb') ->
        dispatch_loop (pre ++ tool_call :: post) nb = (Raise e, nb')
        /\ forall response_content,
             dispatch_cell response_content (Some (pre ++ tool_call :: post)) nb
             = (Raise e, nb')).
Proof.
  intros Hbad.
  assert (Hraise : forall nb, dispatch tool_call nb = (Raise e, nb)).
  { intros nb. destruct Hbad as [Hparse|(function_args & f & Hparse & Hname & Hcall)].
    - now apply dispatch_parse_error.
    - eapply dispatch_call_error; eassumption. }
  split; [exact Hraise|].
  intros pre post nb nb' Hpre.
  assert (Hloop : dispatch_loop (pre ++ tool_call :: post) nb = (Raise e, nb')).
  { rewrite dispatch_loop_app, Hpre, dispatch_loop_cons. now rewrite Hraise. }
  split; [exact Hloop|].
  intros response_content. unfold OpenAI.dispatch_cell.
  destruct (pre ++ tool_call :: post) as [|first rest] eqn:Hlist.
  - now destruct pre.
  - unfold mbind, cell_bind. now rewrite Hloop.
Qed.

End Loop.

Lemma transfer_call_succeeds : succeeds JsonText.loads function_registry transfer_call.
Proof.
  eexists. split; [vm_compute; reflexivity|].
  intros f Hf. vm_compute in Hf. injection Hf as <-. eexists. reflexivity.
Qed.

Lemma dispatch_loop_replies_witness :
  exists nb' new,
    dispatch_loop JsonText.loads function_registry [transfer_call; transfer_call] notebook0
    = (Return tt, nb')
    /\ messages nb' = messages notebook0 ++ new
    /\ new = omap (reply_of JsonText.loads function_registry) [transfer_call; transfer_call]
    /\ name_of <$> new =
         (fun c => Some (name (function c)))
           <$> List.filter (registered function_registry) [transfer_call; transfer_call]
    /\ Forall (fun m => role m = "function") new
    /\ length new =
         length (List.filter (registered function_registry) [transfer_call; transfer_call])
    /\ (length new <= length [transfer_call; transfer_call])%nat.
Proof.
  apply (dispatch_loop_replies JsonText.loads function_registry
           [transfer_call; transfer_call] notebook0).
  repeat constructor; apply transfer_call_succeeds.
Defined.

(** C2, the claim as stated fails: of the two tool calls below, the second
    names a function that is not registered; the loop finishes and has
    appended one message, not two. *)
Lemma dispatch_loop_drops_a_call :
  exists nb',
    dispatch_loop JsonText.loads function_registry [transfer_call; unknown_call] notebook0
    = (Return tt, nb')
    /\ messages nb' = messages notebook0 ++ [transfer_reply]
    /\ length [transfer_call; unknown_call] = 2%nat
    /\ length (messages nb') = S (length (messages notebook0)).
Proof. eexists. vm_compute. repeat split. Qed.

Lemma dispatch_skips_unknown_witness :
  dispatch_loop JsonText.loads function_registry
    [transfer_call; unknown_call; transfer_call] notebook0
  = dispatch_loop JsonText.loads function_registry
      [transfer_call; transfer_call] notebook0.
Proof.
  exact (proj1 (proj2 (dispatch_skips_unknown JsonText.loads function_registry
                         explaining_model unknown_call (JDict []) eq_refl eq_refl))
           [transfer_call] [transfer_call] notebook0).
Defined.

(** C3, the claim as stated fails: the one tool call names a function that
    is not registered; the cell finishes, the model is asked again, and
    [messages] is what it was: no result message was appended for the call. *)
Lemma dispatch_cell_unknown_tool_no_result :
  exists nb',
    dispatch_cell JsonText.loads function_registry explaining_model None
      (Some [unknown_call]) notebook0 = (Return tt, nb')
    /\ messages nb' = messages notebook0
    /\ function_registry !! name (function unknown_call) = None.
Proof. eexists. vm_compute. repeat split. Qed.

Lemma dispatch_aborts_on_malformed_witness :
  dispatch_loop JsonText.loads function_registry
    [transfer_call; truncated_call; transfer_call] notebook0
  = (Raise JSONDecodeError, after_transfer)
  /\ dispatch_cell JsonText.loads function_registry explaining_model None
       (Some [transfer_call; truncated_call; transfer_call]) notebook0
     = (Raise JSONDecodeError, after_transfer).
Proof.
  destruct (proj2 (dispatch_aborts_on_malformed JsonText.loads function_registry
                     explaining_model truncated_call JSONDecodeError
                     (or_introl eq_refl))
              [transfer_call] [transfer_call] notebook0 after_transfer eq_refl)
    as [Hloop Hcell].
  split; [exact Hloop|exact (Hcell None)].
Defined.

(** C4, the claim as stated fails: the payload of the one tool call is cut
    off and does not parse; the cell raises [JSONDecodeError], so the run is
    aborted, and no message that signals the malformed arguments has been
    appended or printed, nor has the model been asked again. *)
Lemma dispatch_cell_malformed_payload_aborts :
  JsonText.loads (arguments (function truncated_call)) = Raise JSONDecodeError
  /\ dispatch_cell JsonText.loads function_registry explaining_model None
       (Some [truncated_call]) notebook0
     = (Raise JSONDecodeError, notebook0).
Proof. split; vm_compute; reflexivity. Qed.

(** A payload that parses but names an argument the function does not take
    aborts the cell as well, with the [TypeError] of the call. *)
Example dispatch_cell_misnamed_argument_aborts :
  JsonText.loads (arguments (function misnamed_call))
  = Return (JDict [("cmd", JStr "transfer 100 uL")])
  /\ dispatch_cell JsonText.loads function_registry explaining_model None
       (Some [misnamed_call]) notebook0
     = (Raise TypeError, notebook0).
Proof. split; vm_compute; reflexivity. Qed.

End DispatchFacts.

(** ** The deck templater *)

Module DeckFacts.

Import Deck Samples.

(** *** Loops *)

Lemma for_each_return_elem {A B} (body : A -> result B) (l : list A)
    (ys : list B) (x : A) :
  for_each body l = Return ys -> x ∈ l ->
  exists y, body x = Return y /\ y ∈ ys.
Proof.
  revert ys. induction l as [|a l IH]; intros ys Hret Hin.
  - now apply elem_of_nil in Hin.
  - cbn in Hret. destruct (body a) as [b|e] eqn:Hb; [|discriminate]. cbn in Hret.
    destruct (for_each body l) as [bs|e] eqn:Hbs; [|discriminate]. cbn in Hret.
    injection Hret as <-. apply elem_of_cons in Hin as [->|Hin].
    + exists b. split; [exact Hb|apply elem_of_cons; now left].
    + destruct (IH bs eq_refl Hin) as (y & Hy & Hin').
      exists y. split; [exact Hy|apply elem_of_cons; now right].
Qed.

Lemma for_each_raise {A B} (body : A -> result B) (l : list A) (e : exception) :
  for_each body l = Raise e -> exists x, x ∈ l /\ body x = Raise e.
Proof.
  induction l as [|a l IH]; intros Hraise; [discriminate|].
  cbn in Hraise. destruct (body a) as [b|e'] eqn:Hb; cbn in Hraise.
  - destruct (for_each body l) as [bs|e'] eqn:Hbs; [discriminate|]. cbn in Hraise.
    injection Hraise as ->. destruct (IH eq_refl) as (x & Hin & Hx).
    exists x. split; [apply elem_of_cons; now right|exact Hx].
  - injection Hraise as ->. exists a. split; [apply elem_of_cons; now left|exact Hb].
Qed.

Lemma for_each_ext {A B} (f g : A -> result B) (l : list A) :
  (forall x, f x = g x) -> for_each f l = for_each g l.
Proof.
  intros Hext. induction l as [|a l IH]; [reflexivity|].
  cbn. now rewrite Hext, IH.
Qed.

(** *** Lookups *)

Lemma getitem_dict (items : list (string * json)) (key : string) :
  getitem (JDict items) (JStr key) =
    match dict_lookup key items with
    | Some v => Return v
    | None => Raise (KeyError (JStr key))
    end.
Proof. reflexivity. Qed.

Lemma dict_lookup_elem (key : string) (items : list (string * json)) (v : json) :
  dict_lookup key items = Some v -> (key, v) ∈ items.
Proof.
  induction items as [|[k x] items IH]; [discriminate|]. cbn.
  destruct (String.eqb key k) eqn:Hk.
  - apply String.eqb_eq in Hk as ->. intros [= ->]. apply elem_of_cons. now left.
  - intros Hl. apply elem_of_cons. right. now apply IH.
Qed.

Lemma dict_lookup_snoc (key key' : string) (v : json) (items : list (string * json)) :
  dict_lookup key (items ++ [(key', v)]) =
    match dict_lookup key items with
    | Some x => Some x
    | None => if String.eqb key key' then Some v else None
    end.
Proof.
  induction items as [|[k x] items IH]; [reflexivity|]. cbn.
  now destruct (String.eqb key k).
Qed.

Lemma forallb_elem {A} (p : A -> bool) (l : list A) (x : A) :
  forallb p l = true -> x ∈ l -> p x = true.
Proof.
  intros Hall Hin. apply list_elem_of_In in Hin.
  exact (proj1 (forallb_forall p l) Hall x Hin).
Qed.

(** *** Which exceptions a well-shaped configuration can raise *)

Lemma shaped_section_dict (entry : json -> bool) (section : json) :
  shaped_section entry (Some section) = true ->
  exists items, section = JDict items
                /\ forallb (fun kv => entry (snd kv)) items = true.
Proof. destruct section; try discriminate. cbn. eauto. Qed.

Lemma tip_rack_raise (items : list (string * json)) (rack : json) (e : exception) :
  shaped_section is_dict (dict_lookup "labware" items) = true ->
  is_str rack = true ->
  tip_rack (JDict items) rack = Raise e -> is_KeyError e = true.
Proof.
  intros Hshape Hrack. unfold tip_rack. cbn.
  destruct (dict_lookup "labware" items) as [labware|]; cbn; [|now intros [= <-]].
  apply shaped_section_dict in Hshape as (section & -> & Hall).
  destruct rack as [| | | |slot| |]; try discriminate. cbn.
  destruct (dict_lookup slot section) as [entry|] eqn:Hslot; cbn; [|now intros [= <-]].
  pose proof (forallb_elem _ _ _ Hall (dict_lookup_elem _ _ _ Hslot)) as Hentry.
  cbn in Hentry. destruct entry as [| | | | | |fields]; try discriminate. cbn.
  destruct (dict_lookup "type" fields); cbn; [discriminate|now intros [= <-]].
Qed.

Lemma pipette_line_raise (items : list (string * json)) (mount : string)
    (pipette : json) (e : exception) :
  shaped_section is_dict (dict_lookup "labware" items) = true ->
  shaped_pipette pipette = true ->
  pipette_line (JDict items) (mount, pipette) = Raise e -> is_KeyError e = true.
Proof.
  intros Hlabware Hshape. unfold pipette_line.
  destruct pipette as [| | | | | |fields]; try discriminate.
  cbn in Hshape. cbn.
  destruct (dict_lookup "tip_racks" fields) as [racks|]; cbn; [|now intros [= <-]].
  destruct racks as [| | | | |racks|]; try discriminate. cbn.
  destruct (for_each (tip_rack (JDict items)) racks) as [tip_racks|e'] eqn:Hracks; cbn.
  - destruct (dict_lookup "type" fields); cbn; [discriminate|now intros [= <-]].
  - intros [= <-]. apply for_each_raise in Hracks as (rack & Hin & Hraise).
    eapply tip_rack_raise; [exact Hlabware| |exact Hraise].
    exact (forallb_elem _ _ _ Hshape Hin).
Qed.

Lemma module_line_raise (module_name : string) (module_info : json) (e : exception) :
  shaped_module module_info = true ->
  module_line (module_name, module_info) = Raise e -> is_KeyError e = true.
Proof.
  intros Hshape. unfold module_line.
  destruct module_info as [| | | | | |fields]; try discriminate.
  cbn in Hshape. cbn.
  destruct (dict_lookup "type" fields); cbn; [|now intros [= <-]].
  destruct (dict_lookup "location" fields) as [location|]; cbn; [|now intros [= <-]].
  destruct location as [| | | | |[|first rest]|]; discriminate.
Qed.

Lemma labware_line_raise (slot : string) (labware : json) (e : exception) :
  is_dict labware = true ->
  labware_line (slot, labware) = Raise e -> is_KeyError e = true.
Proof.
  intros Hshape. unfold labware_line.
  destruct labware as [| | | | | |fields]; try discriminate. cbn.
  destruct (dict_lookup "parent_module" fields); cbn;
    destruct (dict_lookup "type" fields); cbn;
    try discriminate; now intros [= <-].
Qed.

Lemma deck_code_raise (items : list (string * json)) (e : exception) :
  well_shaped items = true ->
  deck_code (JDict items) = Raise e -> is_KeyError e = true.
Proof.
  unfold well_shaped. intros Hshape.
  apply andb_prop in Hshape as [Hshape Hlabware].
  apply andb_prop in Hshape as [Hpipettes Hmodules].
  unfold deck_code. cbn.
  destruct (dict_lookup "api_version" items) as [api_version|]; cbn;
    [|now intros [= <-]].
  destruct (dict_lookup "pipettes" items) as [pipettes|] eqn:Hp; cbn;
    [|now intros [= <-]].
  destruct (shaped_section_dict _ _ Hpipettes) as (ps & -> & Hps). cbn.
  destruct (for_each (pipette_line (JDict items)) ps) as [pipette_lines|e'] eqn:Hpl; cbn.
  2:{ intros [= <-]. apply for_each_raise in Hpl as ([mount pipette] & Hin & Hraise).
      eapply pipette_line_raise; [exact Hlabware| |exact Hraise].
      exact (forallb_elem _ _ _ Hps Hin). }
  assert (Hmods : exists ms,
    (match dict_lookup "modules" items with
     | Some x => Return x
     | None => Return (JDict [])
     end) = Return (JDict ms)
    /\ forallb (fun kv => shaped_module (snd kv)) ms = true).
  { destruct (dict_lookup "modules" items) as [modules|].
    - destruct (shaped_section_dict _ _ Hmodules) as (ms & -> & Hms). eauto.
    - exists []. now split. }
  destruct Hmods as (ms & -> & Hms). cbn.
  destruct (for_each module_line ms) as [module_lines|e'] eqn:Hml; cbn.
  2:{ intros [= <-]. apply for_each_raise in Hml as ([module_name module_info] & Hin & Hraise).
      eapply module_line_raise; [|exact Hraise].
      exact (forallb_elem _ _ _ Hms Hin). }
  destruct (dict_lookup "labware" items) as [labware|]; cbn; [|now intros [= <-]].
  destruct (shaped_section_dict _ _ Hlabware) as (ls & -> & Hls). cbn.
  destruct (for_each labware_line ls) as [labware_lines|e'] eqn:Hll; cbn;
    [discriminate|].
  intros [= <-]. apply for_each_raise in Hll as ([slot labware] & Hin & Hraise).
  eapply labware_line_raise; [|exact Hraise].
  exact (forallb_elem _ _ _ Hls Hin).
Qed.

(** *** What a configuration that gives a script holds *)

Lemma deck_code_return (items : list (string * json)) (lines : list string) :
  deck_code (JDict items) = Return lines ->
  exists api_version pipettes pipette_lines modules module_lines labware labware_lines,
    dict_lookup "api_version" items = Some api_version
    /\ dict_lookup "pipettes" items = Some (JDict pipettes)
    /\ for_each (pipette_line (JDict items)) pipettes = Return pipette_lines
    /\ py_get (JDict items) "modules" (JDict []) = Return (JDict modules)
    /\ for_each module_line modules = Return module_lines
    /\ dict_lookup "labware" items = Some (JDict labware)
    /\ for_each labware_line labware = Return labware_lines
    /\ lines = header api_version ++ pipette_lines ++ module_lines ++ labware_lines.
Proof.
  unfold deck_code. cbn.
  destruct (dict_lookup "api_version" items) as [api_version|]; cbn; [|discriminate].
  destruct (dict_lookup "pipettes" items) as [[| | | | | |pipettes]|]; cbn;
    try discriminate.
  destruct (for_each (pipette_line (JDict items)) pipettes) as [pipette_lines|]
    eqn:Hpl; cbn; [|discriminate].
  destruct (match dict_lookup "modules" items with
            | Some x => Return x
            | None => Return (JDict [])
            end) as [[| | | | | |modules]|] eqn:Hm; cbn; try discriminate.
  destruct (for_each module_line modules) as [module_lines|] eqn:Hml; cbn;
    [|discriminate].
  destruct (dict_lookup "labware" items) as [[| | | | | |labware]|]; cbn;
    try discriminate.
  destruct (for_each labware_line labware) as [labware_lines|] eqn:Hll; cbn;
    [|discriminate].
  intros [= <-].
  exists api_version, pipettes, pipette_lines, modules, module_lines, labware,
    labware_lines.
  repeat split; auto.
Qed.

Lemma deck_code_return_slots (items : list (string * json)) (lines : list string) :
  deck_code (JDict items) = Return lines -> ~ names_absent_slot items.
Proof.
  intros Hret (pipettes & labware & mount & pipette & racks & slot
               & Hp & Hl & Hmount & Hracks & Hslot & Habsent).
  apply deck_code_return in Hret
    as (_ & pipettes' & pipette_lines & _ & _ & _ & _ & _ & Hp' & Hlines & _).
  rewrite Hp in Hp'. injection Hp' as <-.
  destruct (for_each_return_elem _ _ _ _ Hlines Hmount) as (line & Hline & _).
  unfold pipette_line in Hline. cbn in Hline. rewrite Hracks in Hline. cbn in Hline.
  destruct (for_each (tip_rack (JDict items)) racks) as [tip_racks|] eqn:Htips;
    [|discriminate].
  destruct (for_each_return_elem _ _ _ _ Htips Hslot) as (text & Htext & _).
  unfold tip_rack in Htext. cbn in Htext. rewrite Hl in Htext. cbn in Htext.
  rewrite Habsent in Htext. discriminate.
Qed.

(** *** A missing ['modules'] section *)

Lemma tip_rack_modules (items : list (string * json)) (v rack : json) :
  tip_rack (JDict (items ++ [("modules", v)])) rack = tip_rack (JDict items) rack.
Proof.
  unfold tip_rack. cbn. rewrite dict_lookup_snoc. cbn.
  now destruct (dict_lookup "labware" items).
Qed.

Lemma pipette_line_modules (items : list (string * json)) (v : json)
    (item : string * json) :
  pipette_line (JDict (items ++ [("modules", v)])) item
  = pipette_line (JDict items) item.
Proof.
  unfold pipette_line. destruct item as [mount pipette].
  destruct (getitem pipette (JStr "tip_racks")) as [racks|]; cbn; [|reflexivity].
  destruct (py_iter racks) as [rack_list|]; cbn; [|reflexivity].
  now rewrite (for_each_ext _ _ rack_list (tip_rack_modules items v)).
Qed.

Lemma deck_code_modules (items : list (string * json)) :
  dict_lookup "modules" items = None ->
  deck_code (JDict items) = deck_code (JDict (items ++ [("modules", JDict [])])).
Proof.
  intros Hnone. unfold deck_code. cbn. rewrite !dict_lookup_snoc, Hnone. cbn.
  destruct (dict_lookup "api_version" items) as [api_version|]; cbn; [|reflexivity].
  destruct (dict_lookup "pipettes" items) as [pipettes|]; cbn; [|reflexivity].
  destruct (py_items pipettes) as [ps|]; cbn; [|reflexivity].
  rewrite (for_each_ext _ _ ps (pipette_line_modules items (JDict []))).
  destruct (for_each (pipette_line (JDict items)) ps); cbn; [|reflexivity].
  now destruct (dict_lookup "labware" items).
Qed.

(** *** The templater on a file *)

Section OnFile.

Context (read_file : string -> result string) (json_loads : string -> result json).

Local Abbreviation initialize_deck := (initialize_deck read_file json_loads).

Lemma initialize_deck_config (path text : string) (config : json) :
  read_file path = Return text ->
  json_loads text = Return config ->
  initialize_deck path = join nl <$> deck_code config.
Proof.
  intros Hread Hparse. unfold Deck.initialize_deck. rewrite Hread. cbn.
  rewrite Hparse. cbn. now destruct (deck_code config).
Qed.

Lemma labware_line_target (slot : string) (labware : json) (line : string) :
  labware_line (slot, labware) = Return line ->
  exists rhs, line = "    " +:+ slot +:+ "_labware = " +:+ rhs.
Proof.
  unfold labware_line.
  destruct (py_contains "parent_module" labware) as [[|]|]; cbn; [| |discriminate].
  - destruct (getitem labware (JStr "parent_module")); cbn; [|discriminate].
    destruct (getitem labware (JStr "type")); cbn; [|discriminate].
    intros [= <-]. eexists. reflexivity.
  - destruct (getitem labware (JStr "type")); cbn; [|discriminate].
    intros [= <-]. eexists. reflexivity.
Qed.

Lemma digit_not_letter (c : ascii) : is_digit c = true -> is_letter c = false.
Proof.
  unfold is_digit, is_letter. intros Hd.
  apply andb_prop in Hd as [Hlo Hhi].
  apply N.leb_le in Hlo. apply N.leb_le in Hhi.
  repeat (apply orb_false_intro); try apply andb_false_iff.
  - left. apply N.leb_gt. lia.
  - left. apply N.leb_gt. lia.
  - apply N.eqb_neq. lia.
Qed.

Lemma digit_first_not_identifier (s suffix : string) :
  starts_with_digit s = true -> is_identifier (s +:+ suffix) = false.
Proof.
  destruct s as [|c s]; [discriminate|]. cbn [starts_with_digit]. intros Hd.
  change (String c s +:+ suffix) with (String c (s +:+ suffix)).
  cbn [is_identifier]. now rewrite (digit_not_letter c Hd).
Qed.

(** C8: the templater takes assignment targets straight from the keys of
    the configuration.  Whenever [initialize_deck] returns a script for a
    configuration, then for every slot key of its ['labware'] section the
    script has the line that assigns to [<slot>_labware]; and when the key
    starts with a digit, as the slot label ["1"] does, that target is not a
    valid Python identifier.  The notebooks' own configuration is such a
    configuration. *)
Theorem initialize_deck_numeric_slot_target (path text code : string)
    (config : json) (labware : list (string * json)) (slot : string)
    (entry : json) :
  read_file path = Return text ->
  json_loads text = Return config ->
  initialize_deck path = Return code ->
  getitem config (JStr "labware") = Return (JDict labware) ->
  (slot, entry) ∈ labware ->
  starts_with_digit slot = true ->
  exists lines rhs,
    code = join nl lines
    /\ ("    " +:+ slot +:+ "_labware = " +:+ rhs) ∈ lines
    /\ is_identifier (slot +:+ "_labware") = false.
Proof.
  intros Hread Hparse Hcode Hlabware Hslot Hdigit.
  rewrite (initialize_deck_config _ _ _ Hread Hparse) in Hcode.
  destruct (deck_code config) as [lines|] eqn:Hlines; [|discriminate].
  injection Hcode as <-.
  destruct config as [| | | | | |items]; try discriminate.
  apply deck_code_return in Hlines
    as (api_version & pipettes & pipette_lines & modules & module_lines
        & labware' & labware_lines & _ & _ & _ & _ & _ & Hl & Hll & ->).
  rewrite getitem_dict, Hl in Hlabware. injection Hlabware as ->.
  destruct (for_each_return_elem _ _ _ _ Hll Hslot) as (line & Hline & Hin).
  apply labware_line_target in Hline as [rhs ->].
  exists (header api_version ++ pipette_lines ++ module_lines ++ labware_lines), rhs.
  split; [reflexivity|]. split.
  - rewrite !elem_of_app. auto.
  - now apply digit_first_not_identifier.
Qed.

(** C10 (as amended): what [initialize_deck] does with an incomplete
    configuration.  For a configuration that is a JSON object: a missing
    ['modules'] section is treated as an empty one; a missing ['api_version']
    or ['pipettes'] key raises [KeyError]; and when ['labware'] is missing, or
    some pipette's [tip_racks] entry names a slot that is not in the
    ['labware'] mapping, the function raises an exception and returns no
    value, the exception being a [KeyError] whenever the sections that are
    present have the shape of the notebooks' configuration. *)
Theorem initialize_deck_incomplete_configuration (path text : string)
    (items : list (string * json)) :
  read_file path = Return text ->
  json_loads text = Return (JDict items) ->
  (dict_lookup "modules" items = None ->
     initialize_deck path
     = join nl <$> deck_code (JDict (items ++ [("modules", JDict [])])))
  /\ (dict_lookup "api_version" items = None
      \/ dict_lookup "pipettes" items = None ->
      exists key, initialize_deck path = Raise (KeyError (JStr key)))
  /\ (dict_lookup "labware" items = None \/ names_absent_slot items ->
      exists e, initialize_deck path = Raise e
                /\ (well_shaped items = true -> is_KeyError e = true)).
Proof.
  intros Hread Hparse.
  rewrite (initialize_deck_config _ _ _ Hread Hparse).
  split; [|split].
  - intros Hnone. now rewrite (deck_code_modules items Hnone).
  - intros Hmissing. unfold deck_code. cbn.
    destruct (dict_lookup "api_version" items) as [api_version|]; cbn;
      [|now exists "api_version"].
    destruct Hmissing as [Hmissing| ->]; [discriminate|].
    now exists "pipettes".
  - intros Hfails.
    destruct (deck_code (JDict items)) as [lines|e] eqn:Hcode.
    + exfalso. destruct Hfails as [Hnone|Habsent].
      * apply deck_code_return in Hcode
          as (_ & _ & _ & _ & _ & labware & _ & _ & _ & _ & _ & _ & Hl & _).
        congruence.
      * exact (deck_code_return_slots _ _ Hcode Habsent).
    + exists e. split; [reflexivity|].
      intros Hshape. exact (deck_code_raise _ _ Hshape Hcode).
Qed.

End OnFile.

(** On the notebooks' configuration file the embedding gives, character by
    character, the script the notebooks print. *)
Example initialize_deck_recorded_output :
  JsonText.loads opentrons_config_string = Return opentrons_config
  /\ initialize_deck deck_files JsonText.loads "opentrons_config.json"
     = Return recorded_deck_code.
Proof. split; vm_compute; reflexivity. Qed.

Lemma initialize_deck_numeric_slot_target_witness :
  exists lines rhs,
    recorded_deck_code = join nl lines
    /\ ("    " +:+ "1" +:+ "_labware = " +:+ rhs) ∈ lines
    /\ is_identifier ("1" +:+ "_labware") = false.
Proof.
  apply (initialize_deck_numeric_slot_target deck_files JsonText.loads
           "opentrons_config.json" opentrons_config_string recorded_deck_code
           opentrons_config opentrons_labware "1"
           (JDict [("type", JStr "opentrons_96_tiprack_300ul")])).
  - reflexivity.
  - vm_compute. reflexivity.
  - vm_compute. reflexivity.
  - reflexivity.
  - apply elem_of_cons. left. reflexivity.
  - reflexivity.
Defined.

Lemma absent_slot_items_name_absent_slot : names_absent_slot absent_slot_items.
Proof.
  exists [("left", JDict [("type", JStr "p300_single_gen2");
                          ("tip_racks", JList [JStr "9"])])],
         [("1", JDict [("type", JStr "opentrons_96_tiprack_300ul")])],
         "left",
         [("type", JStr "p300_single_gen2"); ("tip_racks", JList [JStr "9"])],
         [JStr "9"], "9".
  repeat split; try reflexivity; apply elem_of_cons; left; reflexivity.
Qed.

Lemma initialize_deck_incomplete_configuration_witness :
  initialize_deck deck_files JsonText.loads "no_modules.json"
  = join nl <$> deck_code (JDict (no_modules_items ++ [("modules", JDict [])]))
  /\ (exists e, initialize_deck deck_files JsonText.loads "no_labware.json" = Raise e
                /\ is_KeyError e = true)
  /\ (exists e, initialize_deck deck_files JsonText.loads "absent_slot.json" = Raise e
                /\ is_KeyError e = true).
Proof.
  split; [|split].
  - apply (initialize_deck_incomplete_configuration deck_files JsonText.loads
             "no_modules.json" no_modules_config_string no_modules_items).
    + reflexivity.
    + vm_compute. reflexivity.
    + reflexivity.
  - destruct (proj2 (proj2 (initialize_deck_incomplete_configuration
                              deck_files JsonText.loads "no_labware.json"
                              no_labware_config_string no_labware_items
                              eq_refl eq_refl))
                (or_introl eq_refl)) as (e & He & Hkey).
    exists e. split; [exact He|]. apply Hkey. reflexivity.
  - destruct (proj2 (proj2 (initialize_deck_incomplete_configuration
                              deck_files JsonText.loads "absent_slot.json"
                              absent_slot_config_string absent_slot_items
                              eq_refl eq_refl))
                (or_intror absent_slot_items_name_absent_slot)) as (e & He & Hkey).
    exists e. split; [exact He|]. apply Hkey. reflexivity.
Defined.

(** A configuration without a ['modules'] section gives a script. *)
Example initialize_deck_without_modules :
  initialize_deck deck_files JsonText.loads "no_modules.json"
  = Return (join nl
      [ "from opentrons import protocol_api";
        "";
        "metadata = {'apiLevel': '2.17'}";
        "";
        "def run(protocol: protocol_api.ProtocolContext):";
        "    left_pipette = protocol.load_instrument('p300_single_gen2', 'left', "
        +:+ "tip_racks=[protocol.load_labware('opentrons_96_tiprack_300ul', '1')])";
        "    1_labware = protocol.load_labware('opentrons_96_tiprack_300ul', '1')" ]).
Proof. vm_compute. reflexivity. Qed.

Lemma flat_labware_items_name_absent_slot : names_absent_slot flat_labware_items.
Proof.
  exists [("left", JDict [("type", JStr "p300_single");
                          ("tip_racks", JList [JStr "1"; JStr "7"])])],
         [("1", JStr "opentrons_96_tiprack_300ul")],
         "left",
         [("type", JStr "p300_single"); ("tip_racks", JList [JStr "1"; JStr "7"])],
         [JStr "1"; JStr "7"], "7".
  repeat split; try reflexivity.
  - apply elem_of_cons. left. reflexivity.
  - apply elem_of_cons. right. apply elem_of_cons. left. reflexivity.
Qed.

(** C10, the claim as stated fails: the exception is not always a
    [KeyError].  The first configuration has no ['labware'] section and its
    module is given by name only: [initialize_deck] raises [TypeError] on
    it.  In the second a pipette asks for slot 7, which ['labware'] does not
    have, after slot 1, whose labware is given by name only:
    [initialize_deck] raises [TypeError] again. *)
Lemma initialize_deck_type_error :
  (JsonText.loads flat_modules_config_string = Return (JDict flat_modules_items)
   /\ dict_lookup "labware" flat_modules_items = None
   /\ initialize_deck deck_files JsonText.loads "flat_modules.json" = Raise TypeError)
  /\ (JsonText.loads flat_labware_config_string = Return (JDict flat_labware_items)
      /\ names_absent_slot flat_labware_items
      /\ initialize_deck deck_files JsonText.loads "flat_labware.json"
         = Raise TypeError).
Proof.
  repeat split; try (vm_compute; reflexivity).
  exact flat_labware_items_name_absent_slot.
Qed.

End DeckFacts.

(** ** Cleaning the text *)

Module CleaningFacts.

Import Cleaning.

Lemma space_is_not_nl : is_nl " " = false.
Proof. reflexivity. Qed.


(** *** The pass over runs of line feeds *)



(** *** Stripping *)

Lemma lstrip_no_whitespace (text : string) :
  starts_with_whitespace (lstrip text) = false.
Proof.
  induction text as [|c rest IH]; [reflexivity|]. cbn.
  destruct (is_whitespace c) eqn:Hc; [exact IH|]. cbn. exact Hc.
Qed.

Lemma lstrip_id (text : string) :
  starts_with_whitespace text = false -> lstrip text = text.
Proof. destruct text as [|c rest]; [reflexivity|]. cbn. now intros ->. Qed.

Lemma rstrip_head (text : string) :
  rstrip text = EmptyString
  \/ exists c rest kept, text = String c rest /\ rstrip text = String c kept.
Proof.
  destruct text as [|c rest]; [now left|]. cbn.
  destruct (rstrip rest) as [|d kept].
  - destruct (is_whitespace c); [now left|]. right. now exists c, rest, EmptyString.
  - right. now exists c, rest, (String d kept).
Qed.

Lemma rstrip_no_whitespace (text : string) :
  ends_with_whitespace (rstrip text) = false.
Proof.
  induction text as [|c rest IH]; [reflexivity|]. cbn.
  destruct (rstrip rest) as [|d kept].
  - destruct (is_whitespace c) eqn:Hc; [reflexivity|]. cbn. exact Hc.
  - exact IH.
Qed.

Lemma rstrip_id (text : string) :
  ends_with_whitespace text = false -> rstrip text = text.
Proof.
  induction text as [|c rest IH]; [reflexivity|].
  destruct rest as [|d rest'].
  - cbn. now intros ->.
  - intros Hend. change (ends_with_whitespace (String d rest') = false) in Hend.
    cbn [rstrip]. cbn [rstrip] in IH. now rewrite (IH Hend).
Qed.

Lemma rstrip_starts (text : string) :
  starts_with_whitespace text = false ->
  starts_with_whitespace (rstrip text) = false.
Proof.
  intros Hs. destruct (rstrip_head text) as [->|(c & rest & kept & -> & ->)];
    [reflexivity|exact Hs].
Qed.

Lemma strip_no_whitespace (text : string) :
  starts_with_whitespace (strip text) = false
  /\ ends_with_whitespace (strip text) = false.
Proof.
  unfold strip. split.
  - apply rstrip_starts, lstrip_no_whitespace.
  - apply rstrip_no_whitespace.
Qed.

Lemma strip_id (text : string) :
  starts_with_whitespace text = false ->
  ends_with_whitespace text = false ->
  strip text = text.
Proof. intros Hs He. unfold strip. now rewrite (lstrip_id _ Hs), (rstrip_id _ He). Qed.

Lemma strip_strip (text : string) : strip (strip text) = strip text.
Proof. apply strip_id; apply strip_no_whitespace. Qed.

(** *** What the passes keep *)














(** *** Running text around line feeds *)



















End CleaningFacts.

(** ** More on the deck templater *)

Module DeckMore.

Import Deck Complete DeckFacts.

(** *** Loops that return *)

Lemma for_each_Forall2 {A B} (body : A -> result B) (l : list A) (ys : list B) :
  for_each body l = Return ys -> Forall2 (fun x y => body x = Return y) l ys.
Proof.
  revert ys. induction l as [|a l IH]; intros ys Hret.
  - injection Hret as <-. constructor.
  - cbn in Hret. destruct (body a) as [b|] eqn:Hb; [|discriminate]. cbn in Hret.
    destruct (for_each body l) as [bs|]; [|discriminate]. cbn in Hret.
    injection Hret as <-. constructor; [exact Hb|now apply IH].
Qed.



(** *** What each line needs *)








(** *** Text inside text *)

Lemma append_assoc (a b c : string) : (a +:+ b) +:+ c = a +:+ (b +:+ c).
Proof.
  induction a as [|x a IH]; [reflexivity|].
  change (String x ((a +:+ b) +:+ c) = String x (a +:+ (b +:+ c))).
  now rewrite IH.
Qed.

Lemma occurs_in_self (text : string) : occurs_in text text.
Proof.
  exists EmptyString, EmptyString.
  induction text as [|c text IH]; [reflexivity|].
  change (String c text = String c (EmptyString +:+ text +:+ EmptyString)).
  now rewrite <- IH.
Qed.

Lemma occurs_in_between (text whole before after : string) :
  occurs_in text whole -> occurs_in text (before +:+ whole +:+ after).
Proof.
  intros (b & a & ->). exists (before +:+ b), (a +:+ after).
  now rewrite !append_assoc.
Qed.

Lemma occurs_in_join (sep text : string) (parts : list string) :
  text ∈ parts -> occurs_in text (join sep parts).
Proof.
  unfold join. induction parts as [|x parts IH]; intros Hin.
  - now apply elem_of_nil in Hin.
  - apply elem_of_cons in Hin as [->|Hin].
    + destruct parts as [|y parts]; [apply occurs_in_self|].
      cbn. exists EmptyString, (sep +:+ String.concat sep (y :: parts)).
      reflexivity.
    + destruct parts as [|y parts]; [now apply elem_of_nil in Hin|].
      change (String.concat sep (x :: y :: parts))
        with (x +:+ sep +:+ String.concat sep (y :: parts)).
      destruct (IH Hin) as (b & a & ->).
      exists (x +:+ sep +:+ b), a. now rewrite !append_assoc.
Qed.

(** *** The three kinds of lines *)

Lemma pipette_line_target (config : json) (mount : string) (pipette : json)
    (line : string) :
  pipette_line config (mount, pipette) = Return line ->
  exists rhs, line = "    " +:+ mount +:+ "_pipette = protocol.load_instrument(" +:+ rhs.
Proof.
  unfold pipette_line.
  destruct (getitem pipette (JStr "tip_racks")) as [racks|]; cbn; [|discriminate].
  destruct (py_iter racks) as [rs|]; cbn; [|discriminate].
  destruct (for_each (tip_rack config) rs); cbn; [|discriminate].
  destruct (getitem pipette (JStr "type")); cbn; [|discriminate].
  intros [= <-]. eexists. reflexivity.
Qed.

Lemma module_line_target (module_name : string) (module_info : json) (line : string) :
  module_line (module_name, module_info) = Return line ->
  exists rhs, line = "    " +:+ module_name +:+ " = protocol.load_module(" +:+ rhs.
Proof.
  unfold module_line.
  destruct (getitem module_info (JStr "type")); cbn; [|discriminate].
  destruct (getitem module_info (JStr "location")) as [location|]; cbn;
    [|discriminate].
  destruct (getitem location (JInt 0)); cbn; [|discriminate].
  intros [= <-]. eexists. reflexivity.
Qed.

Section OnFile.

Context (read_file : string -> result string) (json_loads : string -> result json).

Local Abbreviation initialize_deck := (initialize_deck read_file json_loads).


(** X6: what is not a configuration.  [initialize_deck] generates nothing
    unless the file can be read and holds a JSON object: an error of
    [open] or of [json.loads] comes out as it is, and a JSON document that is
    not an object (a list, a string, a number, [true], [false], [null])
    raises [TypeError] at the first subscript. *)
Theorem initialize_deck_not_an_object (path : string) :
  (forall e, read_file path = Raise e -> initialize_deck path = Raise e)
  /\ (forall text e,
        read_file path = Return text -> json_loads text = Raise e ->
        initialize_deck path = Raise e)
  /\ (forall text config,
        read_file path = Return text -> json_loads text = Return config ->
        is_dict config = false ->
        initialize_deck path = Raise TypeError).
Proof.
  unfold Deck.initialize_deck. repeat split.
  - intros e ->. reflexivity.
  - intros text e -> Hparse. cbn. now rewrite Hparse.
  - intros text config -> Hparse Hno. cbn. rewrite Hparse. cbn.
    now destruct config.
Qed.

(** X7: the keys that count.  [initialize_deck] reads a configuration
    through the four keys ['api_version'], ['pipettes'], ['modules'] and
    ['labware'] only: two files whose configurations agree on these four
    keys give the same result, script or exception, whatever other keys they
    have and in whatever order their sections come. *)
Theorem initialize_deck_reads_four_keys (path1 path2 text1 text2 : string)
    (items1 items2 : list (string * json)) :
  read_file path1 = Return text1 -> json_loads text1 = Return (JDict items1) ->
  read_file path2 = Return text2 -> json_loads text2 = Return (JDict items2) ->
  (forall key, key ∈ deck_keys -> dict_lookup key items1 = dict_lookup key items2) ->
  initialize_deck path1 = initialize_deck path2.
Proof.
  intros Hr1 Hp1 Hr2 Hp2 Hkeys.
  rewrite (initialize_deck_config _ _ _ _ _ Hr1 Hp1),
          (initialize_deck_config _ _ _ _ _ Hr2 Hp2).
  assert (Ha : dict_lookup "api_version" items1 = dict_lookup "api_version" items2)
    by (apply Hkeys; unfold deck_keys; set_solver).
  assert (Hp : dict_lookup "pipettes" items1 = dict_lookup "pipettes" items2)
    by (apply Hkeys; unfold deck_keys; set_solver).
  assert (Hm : dict_lookup "modules" items1 = dict_lookup "modules" items2)
    by (apply Hkeys; unfold deck_keys; set_solver).
  assert (Hl : dict_lookup "labware" items1 = dict_lookup "labware" items2)
    by (apply Hkeys; unfold deck_keys; set_solver).
  assert (Hrack : forall rack,
            tip_rack (JDict items1) rack = tip_rack (JDict items2) rack).
  { intros rack. unfold tip_rack. cbn. now rewrite Hl. }
  assert (Hline : forall item,
            pipette_line (JDict items1) item = pipette_line (JDict items2) item).
  { intros [mount pipette]. unfold pipette_line.
    destruct (getitem pipette (JStr "tip_racks")) as [racks|]; cbn; [|reflexivity].
    destruct (py_iter racks) as [rs|]; cbn; [|reflexivity].
    now rewrite (for_each_ext _ _ rs Hrack). }
  f_equal. unfold deck_code. cbn. rewrite Ha, Hp, Hm, Hl.
  destruct (dict_lookup "api_version" items2); cbn; [|reflexivity].
  destruct (dict_lookup "pipettes" items2) as [pipettes|]; cbn; [|reflexivity].
  destruct (py_items pipettes) as [ps|]; cbn; [|reflexivity].
  now rewrite (for_each_ext _ _ ps Hline).
Qed.

(** X8: the layout of the script.  When [initialize_deck] returns, the
    script is the three header lines followed by one line for each pipette,
    then one line for each module, then one line for each labware entry,
    each group in the order of its section, whatever the order of the
    sections in the file; the line of a pipette assigns to [<mount>_pipette],
    the line of a module to the module's name, and the line of a labware
    entry to [<slot>_labware]. *)
Theorem initialize_deck_layout (path text code : string)
    (items : list (string * json)) :
  read_file path = Return text ->
  json_loads text = Return (JDict items) ->
  initialize_deck path = Return code ->
  exists api_version pipettes modules labware pipette_lines module_lines labware_lines,
    dict_lookup "api_version" items = Some api_version
    /\ dict_lookup "pipettes" items = Some (JDict pipettes)
    /\ py_get (JDict items) "modules" (JDict []) = Return (JDict modules)
    /\ dict_lookup "labware" items = Some (JDict labware)
    /\ code = join nl (header api_version ++ pipette_lines ++ module_lines
                       ++ labware_lines)
    /\ Forall2 (fun item line => exists rhs,
                  line = "    " +:+ item.1 +:+ "_pipette = protocol.load_instrument("
                         +:+ rhs)
               pipettes pipette_lines
    /\ Forall2 (fun item line => exists rhs,
                  line = "    " +:+ item.1 +:+ " = protocol.load_module(" +:+ rhs)
               modules module_lines
    /\ Forall2 (fun item line => exists rhs,
                  line = "    " +:+ item.1 +:+ "_labware = " +:+ rhs)
               labware labware_lines.
Proof.
  intros Hread Hparse Hcode.
  rewrite (initialize_deck_config _ _ _ _ _ Hread Hparse) in Hcode.
  destruct (deck_code (JDict items)) as [lines|] eqn:Hlines; [|discriminate].
  injection Hcode as <-.
  apply deck_code_return in Hlines
    as (api_version & pipettes & pipette_lines & modules & module_lines
        & labware & labware_lines & Ha & Hp & Hpl & Hm & Hml & Hl & Hll & ->).
  exists api_version, pipettes, modules, labware, pipette_lines, module_lines,
    labware_lines.
  repeat split; try assumption.
  - eapply Forall2_impl; [exact (for_each_Forall2 _ _ _ Hpl)|].
    intros [mount pipette] line Hline. exact (pipette_line_target _ _ _ _ Hline).
  - eapply Forall2_impl; [exact (for_each_Forall2 _ _ _ Hml)|].
    intros [module_name module_info] line Hline.
    exact (module_line_target _ _ _ Hline).
  - eapply Forall2_impl; [exact (for_each_Forall2 _ _ _ Hll)|].
    intros [slot entry] line Hline. exact (labware_line_target _ _ _ Hline).
Qed.

(** X9: tip racks are loaded twice.  When [initialize_deck] returns, a
    slot that a pipette names in its ['tip_racks'] and whose labware entry
    has no ['parent_module'] is loaded by the same call
    [protocol.load_labware('<type>', '<slot>')] twice in the script: once
    inside the line of the pipette, and once more in the line of the
    labware entry. *)
Theorem initialize_deck_loads_tip_racks_twice (path text code mount slot : string)
    (items pipettes labware fields : list (string * json)) (racks : list json)
    (entry : json) :
  read_file path = Return text ->
  json_loads text = Return (JDict items) ->
  initialize_deck path = Return code ->
  dict_lookup "pipettes" items = Some (JDict pipettes) ->
  (mount, JDict fields) ∈ pipettes ->
  dict_lookup "tip_racks" fields = Some (JList racks) ->
  JStr slot ∈ racks ->
  dict_lookup "labware" items = Some (JDict labware) ->
  dict_lookup slot labware = Some entry ->
  py_contains "parent_module" entry = Return false ->
  exists lines type pipette_line,
    code = join nl lines
    /\ getitem entry (JStr "type") = Return type
    /\ let call := "protocol.load_labware('" +:+ py_str type +:+ "', '" +:+ slot
                   +:+ "')" in
       ("    " +:+ slot +:+ "_labware = " +:+ call) ∈ lines
       /\ pipette_line ∈ lines
       /\ (exists rhs, pipette_line = "    " +:+ mount
                         +:+ "_pipette = protocol.load_instrument(" +:+ rhs)
       /\ occurs_in call pipette_line.
Proof.
  intros Hread Hparse Hcode Hp Hmount Hracks Hslot Hl Hentry Hparent.
  rewrite (initialize_deck_config _ _ _ _ _ Hread Hparse) in Hcode.
  destruct (deck_code (JDict items)) as [lines|] eqn:Hlines; [|discriminate].
  injection Hcode as <-.
  apply deck_code_return in Hlines
    as (api_version & pipettes' & pipette_lines & modules & module_lines
        & labware' & labware_lines & _ & Hp' & Hpl & _ & _ & Hl' & Hll & ->).
  rewrite Hp in Hp'. injection Hp' as <-. rewrite Hl in Hl'. injection Hl' as <-.
  destruct (for_each_return_elem _ _ _ _ Hpl Hmount) as (pline & Hpline & Hpin).
  pose proof (pipette_line_target _ _ _ _ Hpline) as Htarget.
  unfold pipette_line in Hpline. cbn in Hpline. rewrite Hracks in Hpline.
  cbn in Hpline.
  destruct (for_each (tip_rack (JDict items)) racks) as [tips|] eqn:Htips;
    [|discriminate]. cbn in Hpline.
  destruct (dict_lookup "type" fields) as [ptype|]; [|discriminate].
  cbn in Hpline. injection Hpline as <-.
  destruct (for_each_return_elem _ _ _ _ Htips Hslot) as (call & Hcall & Hcin).
  unfold tip_rack in Hcall. cbn in Hcall. rewrite Hl in Hcall. cbn in Hcall.
  rewrite Hentry in Hcall. cbn in Hcall.
  destruct (getitem entry (JStr "type")) as [type|] eqn:Htype; [|discriminate].
  cbn in Hcall. injection Hcall as <-.
  destruct (for_each_return_elem _ _ _ _ Hll (dict_lookup_elem _ _ _ Hentry))
    as (lline & Hlline & Hlin).
  unfold labware_line in Hlline. rewrite Hparent in Hlline. cbn in Hlline.
  rewrite Htype in Hlline. cbn in Hlline. injection Hlline as <-.
  eexists _, type, _. split; [reflexivity|]. split; [reflexivity|]. cbn zeta.
  split; [|split; [|split]].
  - rewrite !elem_of_app. right. right. right. exact Hlin.
  - rewrite !elem_of_app. right. left. exact Hpin.
  - exact Htarget.
  - pose proof (occurs_in_join ", " _ _ Hcin) as Hocc.
    apply (occurs_in_between _ _
             ("    " +:+ mount +:+ "_pipette = protocol.load_instrument('"
              +:+ py_str ptype +:+ "', '" +:+ mount +:+ "', tip_racks=[")
             "])") in Hocc.
    rewrite !append_assoc in Hocc. exact Hocc.
Qed.

End OnFile.

Import Samples MoreSamples.


Lemma initialize_deck_not_an_object_witness :
  initialize_deck more_files JsonText.loads "nowhere.json" = Raise OSError
  /\ initialize_deck more_files JsonText.loads "broken.json" = Raise JSONDecodeError
  /\ initialize_deck more_files JsonText.loads "list.json" = Raise TypeError.
Proof.
  split; [|split].
  - exact (proj1 (initialize_deck_not_an_object more_files JsonText.loads
                    "nowhere.json") OSError eq_refl).
  - exact (proj1 (proj2 (initialize_deck_not_an_object more_files JsonText.loads
                           "broken.json"))
             "{api_version: 2.17}" JSONDecodeError eq_refl eq_refl).
  - exact (proj2 (proj2 (initialize_deck_not_an_object more_files JsonText.loads
                           "list.json"))
             "[1, 2]" (JList [JInt 1; JInt 2]) eq_refl eq_refl eq_refl).
Defined.

Lemma initialize_deck_reads_four_keys_witness :
  initialize_deck more_files JsonText.loads "opentrons_config.json"
  = initialize_deck more_files JsonText.loads "reordered.json".
Proof.
  apply (initialize_deck_reads_four_keys more_files JsonText.loads
           "opentrons_config.json" "reordered.json"
           opentrons_config_string reordered_config_string
           opentrons_items reordered_items eq_refl eq_refl eq_refl eq_refl).
  intros key Hkey. unfold deck_keys in Hkey.
  repeat (apply elem_of_cons in Hkey as [->|Hkey]; [reflexivity|]).
  now apply elem_of_nil in Hkey.
Defined.

Lemma initialize_deck_layout_witness :
  exists api_version pipettes modules labware pipette_lines module_lines labware_lines,
    dict_lookup "api_version" reordered_items = Some api_version
    /\ dict_lookup "pipettes" reordered_items = Some (JDict pipettes)
    /\ py_get (JDict reordered_items) "modules" (JDict []) = Return (JDict modules)
    /\ dict_lookup "labware" reordered_items = Some (JDict labware)
    /\ recorded_deck_code
       = join nl (header api_version ++ pipette_lines ++ module_lines
                  ++ labware_lines)
    /\ Forall2 (fun item line => exists rhs,
                  line = "    " +:+ item.1 +:+ "_pipette = protocol.load_instrument("
                         +:+ rhs)
               pipettes pipette_lines
    /\ Forall2 (fun item line => exists rhs,
                  line = "    " +:+ item.1 +:+ " = protocol.load_module(" +:+ rhs)
               modules module_lines
    /\ Forall2 (fun item line => exists rhs,
                  line = "    " +:+ item.1 +:+ "_labware = " +:+ rhs)
               labware labware_lines.
Proof.
  apply (initialize_deck_layout more_files JsonText.loads "reordered.json"
           reordered_config_string recorded_deck_code reordered_items
           eq_refl eq_refl).
  vm_compute. reflexivity.
Defined.

Lemma initialize_deck_loads_tip_racks_twice_witness :
  exists lines type pipette_line,
    recorded_deck_code = join nl lines
    /\ getitem (JDict [("type", JStr "opentrons_96_tiprack_300ul")]) (JStr "type")
       = Return type
    /\ let call := "protocol.load_labware('" +:+ py_str type +:+ "', '" +:+ "1"
                   +:+ "')" in
       ("    " +:+ "1" +:+ "_labware = " +:+ call) ∈ lines
       /\ pipette_line ∈ lines
       /\ (exists rhs, pipette_line = "    " +:+ "left"
                         +:+ "_pipette = protocol.load_instrument(" +:+ rhs)
       /\ occurs_in call pipette_line.
Proof.
  apply (initialize_deck_loads_tip_racks_twice deck_files JsonText.loads
           "opentrons_config.json" opentrons_config_string recorded_deck_code
           "left" "1" opentrons_items
           [ ("left", JDict [ ("type", JStr "p300_single_gen2");
                              ("tip_racks", JList [JStr "1"]) ]);
             ("right", JDict [ ("type", JStr "p20_multi_gen2");
                               ("tip_racks", JList [JStr "2"]) ]) ]
           opentrons_labware
           [ ("type", JStr "p300_single_gen2"); ("tip_racks", JList [JStr "1"]) ]
           [JStr "1"]
           (JDict [("type", JStr "opentrons_96_tiprack_300ul")])).
  - reflexivity.
  - vm_compute. reflexivity.
  - vm_compute. reflexivity.
  - reflexivity.
  - apply elem_of_cons. left. reflexivity.
  - reflexivity.
  - apply elem_of_cons. left. reflexivity.
  - reflexivity.
  - reflexivity.
  - reflexivity.
Defined.

End DeckMore.

(** ** More on the dispatch cell *)

Module DispatchMore.

Import OpenAI Appends Samples DispatchFacts.

Section Cell.

Context (json_loads : string -> result json)
        (registry : gmap string (list (string * json) -> result string))
        (chat_create : list ChatMessage -> result (option string)).

Local Abbreviation dispatch := (dispatch json_loads registry).
Local Abbreviation dispatch_loop := (dispatch_loop json_loads registry).
Local Abbreviation dispatch_cell := (dispatch_cell json_loads registry chat_create).

Lemma extends_trans (a b c : Notebook) (new1 new2 : list ChatMessage)
    (printed1 printed2 : list string) :
  extends a b new1 printed1 -> extends b c new2 printed2 ->
  extends a c (new1 ++ new2) (printed1 ++ printed2).
Proof.
  intros [Hm1 Hs1] [Hm2 Hs2]. split.
  - now rewrite Hm2, Hm1, app_assoc.
  - now rewrite Hs2, Hs1, app_assoc.
Qed.

Lemma extends_refl (nb : Notebook) : extends nb nb [] [].
Proof. split; now rewrite app_nil_r. Qed.

Lemma dispatch_extends (tool_call : ChatCompletionMessageToolCall) (nb : Notebook) :
  exists new printed,
    extends nb (dispatch tool_call nb).2 new printed
    /\ Forall (function_result registry) new
    /\ (length new <= 1)%nat.
Proof.
  destruct (json_loads (arguments (function tool_call))) as [function_args|e]
    eqn:Hparse.
  - destruct (registry !! name (function tool_call)) as [f|] eqn:Hname.
    + destruct (call_with f function_args) as [function_response|e] eqn:Hcall.
      * rewrite (dispatch_known _ _ _ _ _ _ _ Hparse Hname Hcall). cbn.
        eexists _, _. split; [split; reflexivity|]. split; [|cbn; lia].
        constructor; [|constructor]. split; [reflexivity|].
        exists (name (function tool_call)). split; [reflexivity|eauto].
      * rewrite (dispatch_call_error _ _ _ _ _ _ _ Hparse Hname Hcall).
        exists [], []. split; [apply extends_refl|]. split; [constructor|cbn; lia].
    + rewrite (dispatch_unknown _ _ _ _ _ Hparse Hname).
      exists [], []. split; [apply extends_refl|]. split; [constructor|cbn; lia].
  - rewrite (dispatch_parse_error _ _ _ _ _ Hparse).
    exists [], []. split; [apply extends_refl|]. split; [constructor|cbn; lia].
Qed.

Lemma dispatch_loop_extends (tool_calls : list ChatCompletionMessageToolCall)
    (nb : Notebook) :
  exists new printed,
    extends nb (dispatch_loop tool_calls nb).2 new printed
    /\ Forall (function_result registry) new
    /\ (length new <= length tool_calls)%nat.
Proof.
  revert nb. induction tool_calls as [|tool_call rest IH]; intros nb.
  - exists [], []. split; [apply extends_refl|]. split; [constructor|cbn; lia].
  - rewrite dispatch_loop_cons.
    destruct (dispatch_extends tool_call nb) as (new1 & printed1 & H1 & Hf1 & Hl1).
    destruct (dispatch tool_call nb) as [[[]|e] nb1]; cbn in H1.
    + destruct (IH nb1) as (new2 & printed2 & H2 & Hf2 & Hl2).
      exists (new1 ++ new2), (printed1 ++ printed2).
      split; [exact (extends_trans _ _ _ _ _ _ _ H1 H2)|].
      split; [now apply Forall_app|]. rewrite length_app. cbn. lia.
    + exists new1, printed1. cbn. split; [exact H1|]. split; [exact Hf1|cbn; lia].
Qed.

(** X10: the cell only ever appends.  Whatever the tool calls, and
    whether the cell finishes or raises, the list [messages] it leaves is the
    list it found followed by new messages, and the same holds for what has
    been printed: nothing earlier is removed or changed.  Every new message
    is the result of a registered function (role ["function"], named after
    it), and there are at most as many of them as tool calls. *)
Theorem dispatch_cell_only_appends (response_content : option string)
    (tool_calls : option (list ChatCompletionMessageToolCall)) (nb : Notebook) :
  exists new printed,
    extends nb (dispatch_cell response_content tool_calls nb).2 new printed
    /\ Forall (function_result registry) new
    /\ (length new <= length (default [] tool_calls))%nat.
Proof.
  unfold OpenAI.dispatch_cell.
  destruct tool_calls as [[|tool_call rest]|].
  - exists [], [print_text response_content]. cbn.
    split; [split; [now rewrite app_nil_r|reflexivity]|]. split; [constructor|lia].
  - destruct (dispatch_loop_extends (tool_call :: rest) nb)
      as (new & printed & Hext & Hf & Hl).
    unfold mbind, cell_bind.
    destruct (OpenAI.dispatch_loop json_loads registry (tool_call :: rest) nb)
      as [[[]|e] nb1]; cbn in Hext.
    + unfold read_messages, lift.
      destruct (chat_create (messages nb1)) as [reply|e]; cbn.
      * exists new, (printed ++ [nl +:+ "Explanation of the generated code:";
                                 print_text reply]).
        split; [|split; [exact Hf|exact Hl]].
        destruct Hext as [Hm Hs]. split; [exact Hm|]. cbn.
        rewrite Hs. now rewrite <- !app_assoc.
      * exists new, printed. split; [exact Hext|]. split; [exact Hf|exact Hl].
    + exists new, printed. cbn. split; [exact Hext|]. split; [exact Hf|exact Hl].
  - exists [], [print_text response_content]. cbn.
    split; [split; [now rewrite app_nil_r|reflexivity]|]. split; [constructor|lia].
Qed.

(** X11: when the model is asked again, and with what.  Without tool
    calls ([None] or an empty list) the cell prints the content of the
    response and does nothing else.  With tool calls that the loop gets
    through, the model client is called once, with the messages as the loop
    left them, function results included; its answer is printed under the
    heading, and if the client raises, the cell raises after the messages
    have been appended, and they stay appended. *)
Theorem dispatch_cell_second_turn (response_content : option string)
    (nb : Notebook) :
  (forall tool_calls,
     tool_calls = None \/ tool_calls = Some [] ->
     dispatch_cell response_content tool_calls nb
     = (Return tt, {| messages := messages nb;
                      stdout := stdout nb ++ [print_text response_content] |}))
  /\ (forall tool_call rest nb1,
        dispatch_loop (tool_call :: rest) nb = (Return tt, nb1) ->
        dispatch_cell response_content (Some (tool_call :: rest)) nb
        = match chat_create (messages nb1) with
          | Return reply =>
              (Return tt,
               {| messages := messages nb1;
                  stdout := stdout nb1
                            ++ [nl +:+ "Explanation of the generated code:";
                                print_text reply] |})
          | Raise e => (Raise e, nb1)
          end).
Proof.
  split.
  - intros tool_calls [->| ->]; reflexivity.
  - intros tool_call rest nb1 Hloop. unfold OpenAI.dispatch_cell, mbind, cell_bind.
    rewrite Hloop. unfold read_messages, lift.
    destruct (chat_create (messages nb1)) as [reply|e]; [|reflexivity].
    cbn. unfold print. cbn. now rewrite <- app_assoc.
Qed.

End Cell.

(** X12: the arguments of [generate_opentrons_code].  For a tool call
    named [generate_opentrons_code] whose payload parses, the loop appends the
    generated text exactly when the payload is an object with the one key
    ['command']; with any other payload (no ['command'], a further key, or a
    value that is not an object) the call raises [TypeError] and nothing is
    appended. *)
Theorem dispatch_generate_opentrons_code (json_loads : string -> result json)
    (deck_state_dump : string) (tool_call : ChatCompletionMessageToolCall)
    (function_args : json) (nb : Notebook) :
  name (function tool_call) = "generate_opentrons_code" ->
  json_loads (arguments (function tool_call)) = Return function_args ->
  (forall command,
     function_args = JDict [("command", command)] ->
     dispatch json_loads (available_functions deck_state_dump) tool_call nb
     = (Return tt,
        {| messages := messages nb ++
             [{| role := "function"; name_of := Some "generate_opentrons_code";
                 content := generate_opentrons_code_text deck_state_dump command |}];
           stdout := stdout nb ++
             ["Generated Opentrons Code:" +:+ nl
              +:+ generate_opentrons_code_text deck_state_dump command] |}))
  /\ ((forall command, function_args <> JDict [("command", command)]) ->
      dispatch json_loads (available_functions deck_state_dump) tool_call nb
      = (Raise TypeError, nb)).
Proof.
  intros Hname Hparse.
  assert (Hf : available_functions deck_state_dump !! name (function tool_call)
               = Some (generate_opentrons_code deck_state_dump)).
  { rewrite Hname. reflexivity. }
  split.
  - intros command ->.
    rewrite (dispatch_known json_loads _ tool_call _ _
               (generate_opentrons_code_text deck_state_dump command) nb
               Hparse Hf eq_refl).
    now rewrite Hname.
  - intros Hother.
    apply (dispatch_call_error json_loads _ tool_call function_args _ TypeError nb
             Hparse Hf).
    destruct function_args as [| | | | | |[|[key command] [|second more]]];
      try reflexivity.
    cbn. destruct (String.eqb key "command") eqn:Hkey; [|reflexivity].
    apply String.eqb_eq in Hkey as ->. now destruct (Hother command).
Qed.

Lemma dispatch_cell_second_turn_witness :
  dispatch_cell JsonText.loads function_registry explaining_model (Some "Hello.")
    (Some []) notebook0
  = (Return tt, {| messages := chat_history; stdout := ["Hello."] |})
  /\ dispatch_cell JsonText.loads function_registry explaining_model None
       (Some [transfer_call]) notebook0
     = (Return tt,
        {| messages := messages after_transfer;
           stdout := stdout after_transfer
                     ++ [nl +:+ "Explanation of the generated code:";
                         "The code loads the labware and transfers the liquid."] |}).
Proof.
  split.
  - exact (proj1 (dispatch_cell_second_turn JsonText.loads function_registry
                    explaining_model (Some "Hello.") notebook0)
             (Some []) (or_intror eq_refl)).
  - exact (proj2 (dispatch_cell_second_turn JsonText.loads function_registry
                    explaining_model None notebook0)
             transfer_call [] after_transfer eq_refl).
Defined.

Lemma dispatch_generate_opentrons_code_witness :
  dispatch JsonText.loads function_registry transfer_call notebook0
  = (Return tt, after_transfer)
  /\ dispatch JsonText.loads function_registry misnamed_call notebook0
     = (Raise TypeError, notebook0).
Proof.
  split.
  - exact (proj1 (dispatch_generate_opentrons_code JsonText.loads
                    default_deck_state_dump transfer_call
                    (JDict [("command", JStr "transfer 100 uL from well A1 to well B1")])
                    notebook0 eq_refl eq_refl)
             (JStr "transfer 100 uL from well A1 to well B1") eq_refl).
  - apply (proj2 (dispatch_generate_opentrons_code JsonText.loads
                    default_deck_state_dump misnamed_call
                    (JDict [("cmd", JStr "transfer 100 uL")])
                    notebook0 eq_refl eq_refl)).
    intros command Heq. discriminate Heq.
Defined.

End DispatchMore.

(** ** The agent node and the router together *)

Module AgentFacts.

Import RouterFacts Samples.

(** X13: the route after an agent turn.  [call_model] returns an update
    of exactly one message, the model's response, and raises what the model
    raises.  Once that update is added to the existing list, the router
    decides from the response alone, whatever the history: it cannot fail on
    an empty list, it returns ["tools"] when the response carries tool calls
    and [END] when it carries none. *)
Theorem route_after_call_model (model : list Message -> result Message)
    (state : MessagesState) :
  (forall e, model (messages state) = Raise e -> call_model model state = Raise e)
  /\ (forall update,
        call_model model state = Return update ->
        exists response,
          model (messages state) = Return response
          /\ messages update = [response]
          /\ should_continue {| messages := messages state ++ messages update |}
             = (calls ← getattr_tool_calls response;
                if truthy calls then Return "tools" else Return END)
          /\ should_continue {| messages := messages state ++ messages update |}
             <> Raise IndexError).
Proof.
  split.
  - intros e He. unfold call_model. now rewrite He.
  - intros update Hupdate. unfold call_model in Hupdate.
    destruct (model (messages state)) as [response|] eqn:Hmodel; [|discriminate].
    cbn in Hupdate. injection Hupdate as <-. exists response. cbn [messages].
    assert (Hroute : should_continue {| messages := messages state ++ [response] |}
                     = (calls ← getattr_tool_calls response;
                        if truthy calls then Return "tools" else Return END)).
    { apply should_continue_last. cbn. apply last_snoc. }
    repeat split; [exact Hroute|]. rewrite Hroute.
    unfold getattr_tool_calls. destruct (tool_calls response) as [calls|]; cbn.
    + now destruct (truthy calls).
    + discriminate.
Qed.

Lemma route_after_call_model_witness :
  should_continue
    {| messages := [question] ++ [ai_message "" [search_call]] |}
  = Return "tools".
Proof.
  destruct (proj2 (route_after_call_model searching_model
                     {| messages := [question] |})
              {| messages := [ai_message "" [search_call]] |} eq_refl)
    as (response & Hmodel & Hupdate & Hroute & _).
  injection Hupdate as <-. exact Hroute.
Defined.

End AgentFacts.
